(** * InstaScrape: the metadata service of [App/app.py]

    A shallow embedding of the service's logic and the properties of its
    specification: the credential provisioner, the fallback policy, the error
    translator, the metadata fetcher, and the HTTP handler that drives the
    credential pool.

    Conventions of the embedding.
    - A Python [str] is a [string]; text outside ASCII is carried as the bytes
      of its UTF-8 encoding.  [str.strip] removes Python's white space, the
      characters beyond ASCII included.  [str.lower] lowers the letters A-Z
      and the two characters beyond ASCII whose lower case holds an ASCII
      letter, U+212A KELVIN SIGN (k) and U+0130 (i followed by U+0307); any
      other character beyond ASCII is left as it is, since Python lowers it
      to a character beyond ASCII and the code searches the lowered text
      for ASCII substrings only.
    - [None] is [None]: an optional value is an [option].
    - A call that may raise returns a [result]: [Ok v] or [Raise e], with
      [e] the text [str(e)] of the exception.
    - The extraction library (yt-dlp), the server's time zone, the secret
      store and the file system are parameters or explicit state. *)

From Stdlib Require Import ZArith String Ascii List Bool Lia.
From stdpp Require Import gmap strings pretty.
Import ListNotations.

Open Scope string_scope.

(** ** Python strings *)

Module PyStr.

(** The string of the given bytes, for text beyond ASCII. *)
Definition bytes (l : list N) : string :=
  fold_right (fun n s => String (ascii_of_N n) s) "" l.

(** [c.lower()] for one byte: A-Z are moved to a-z. *)
Definition lower_char (c : ascii) : ascii :=
  let n := N_of_ascii c in
  if (65 <=? n)%N && (n <=? 90)%N then ascii_of_N (n + 32) else c.

(** The two characters beyond ASCII whose lower case holds an ASCII letter,
    in UTF-8: U+212A KELVIN SIGN, whose lower case is "k", and U+0130 LATIN
    CAPITAL LETTER I WITH DOT ABOVE, whose lower case is "i" followed by
    U+0307 COMBINING DOT ABOVE. *)
Definition KELVIN_SIGN : string := bytes [226; 132; 170]%N.
Definition CAPITAL_I_WITH_DOT : string := bytes [196; 176]%N.
Definition COMBINING_DOT : string := bytes [204; 135]%N.

(** [s.lower()], with [skip] bytes of a rewritten character still to drop.
    The letters A-Z are lowered and the two characters above are rewritten.
    Every other character beyond ASCII is left as it is: Python lowers it
    to a character beyond ASCII. *)
Fixpoint lower_from (skip : nat) (s : string) : string :=
  match s with
  | EmptyString => EmptyString
  | String c s' =>
      match skip with
      | S k => lower_from k s'
      | O =>
          if String.prefix KELVIN_SIGN s then "k" +:+ lower_from 2 s'
          else if String.prefix CAPITAL_I_WITH_DOT s then
            "i" +:+ COMBINING_DOT +:+ lower_from 1 s'
          else String (lower_char c) (lower_from 0 s')
      end
  end.

(** [s.lower()]. *)
Definition lower (s : string) : string := lower_from 0 s.

(** The letters A-Z lowered byte by byte: what [lower] is on text without
    the two characters above. *)
Fixpoint lower_bytes (s : string) : string :=
  match s with
  | EmptyString => EmptyString
  | String c s' => String (lower_char c) (lower_bytes s')
  end.

(** An ASCII text with no "k" that does not end with "i": the lower case
    of neither of the two characters can take part in an occurrence of
    it. *)
Fixpoint plain (p : string) : bool :=
  match p with
  | EmptyString => true
  | String c p' =>
      let n := N_of_ascii c in
      (n <? 128)%N && negb (n =? 107)%N
      && match p' with EmptyString => negb (n =? 105)%N | _ => true end
      && plain p'
  end.

(** [c.isspace()] for a character of the ASCII range. *)
Definition isspace (c : ascii) : bool :=
  let n := N_of_ascii c in
  ((9 <=? n)%N && (n <=? 13)%N) || ((28 <=? n)%N && (n <=? 32)%N).

(** The number of bytes of the white-space character [s] starts with, and 0
    when it starts with none.  Beyond ASCII, Python's white space is U+0085,
    U+00A0, U+1680, U+2000 to U+200A, U+2028, U+2029, U+202F, U+205F and
    U+3000: in UTF-8, C2 85, C2 A0, E1 9A 80, E2 80 80 to E2 80 8A, E2 80 A8,
    E2 80 A9, E2 80 AF, E2 81 9F and E3 80 80. *)
Definition space_len (s : string) : nat :=
  match s with
  | EmptyString => 0
  | String c1 s1 =>
      if isspace c1 then 1
      else
        match s1 with
        | EmptyString => 0
        | String c2 s2 =>
            let n1 := N_of_ascii c1 in
            let n2 := N_of_ascii c2 in
            if (n1 =? 194)%N && ((n2 =? 133)%N || (n2 =? 160)%N) then 2
            else
              match s2 with
              | EmptyString => 0
              | String c3 _ =>
                  let n3 := N_of_ascii c3 in
                  if ((n1 =? 225)%N && (n2 =? 154)%N && (n3 =? 128)%N)
                     || ((n1 =? 226)%N && (n2 =? 128)%N
                         && (((128 <=? n3)%N && (n3 <=? 138)%N)
                             || (n3 =? 168)%N || (n3 =? 169)%N || (n3 =? 175)%N))
                     || ((n1 =? 226)%N && (n2 =? 129)%N && (n3 =? 159)%N)
                     || ((n1 =? 227)%N && (n2 =? 128)%N && (n3 =? 128)%N)
                  then 3
                  else 0
              end
        end
  end.

(** [s.lstrip()], with [skip] bytes of a white-space character still to
    drop: white-space characters are dropped from the left until a
    character that is none stands first. *)
Fixpoint lstrip_from (skip : nat) (s : string) : string :=
  match s with
  | EmptyString => EmptyString
  | String _ s' =>
      match skip with
      | S k => lstrip_from k s'
      | O =>
          match space_len s with
          | O => s
          | S k => lstrip_from k s'
          end
      end
  end.

(** [s.lstrip()]. *)
Definition lstrip (s : string) : string := lstrip_from 0 s.

(** A string of white space only (the empty string included): nothing is
    left of it once the white space is dropped from the left. *)
Definition blank (s : string) : bool :=
  match lstrip s with EmptyString => true | _ => false end.

(** [s.rstrip()]: the string is cut where what follows is white space
    only. *)
Fixpoint rstrip (s : string) : string :=
  match s with
  | EmptyString => EmptyString
  | String c s' => if blank s then EmptyString else String c (rstrip s')
  end.

(** [s.strip()]. *)
Definition strip (s : string) : string := rstrip (lstrip s).

(** [p in s]: [p] starts at some position of [s]. *)
Fixpoint contains (p s : string) : bool :=
  String.prefix p s ||
  match s with
  | EmptyString => false
  | String _ s' => contains p s'
  end.

(** [bool(s)]: a string is true when it is not empty. *)
Definition truthy (s : string) : bool :=
  match s with EmptyString => false | _ => true end.

(** The mathematical reading of [p in s]. *)
Definition is_substring (p s : string) : Prop :=
  exists pre post, s = pre +:+ p +:+ post.

End PyStr.

(** ** Results of calls that may raise *)

Inductive result (A : Type) : Type :=
| Ok (v : A)
| Raise (e : string).
Arguments Ok {A} v.
Arguments Raise {A} e.

(** ** 2. Fallback policy *)

Definition retry_patterns : list string :=
  [ "http error 400";
    "instagram api is not granting access";
    "instagram sent an empty media response";
    "login session is not accepted";
    "post is private/restricted" ].

(** [any(p in text for p in patterns)]. *)
Definition any_in (patterns : list string) (text : string) : bool :=
  existsb (fun p => PyStr.contains p text) patterns.

Definition should_retry_with_alt_cookie (error_text : option string) : bool :=
  let error_text := PyStr.lower (default "" error_text) in
  any_in retry_patterns error_text.

(** ** 3. Error translator *)

Definition msg_no_video : string :=
  "No downloadable video found (might be an image, carousel, or removed).".
Definition msg_private : string :=
  "Post is private/restricted or the login session is not accepted.".
Definition msg_unable : string :=
  "Unable to extract data for this URL.".
Definition msg_broken : string :=
  "yt-dlp Instagram extractor is currently broken for this URL.".
Definition msg_unknown : string :=
  "Unknown error – see server logs.".

Definition simplify_error_message (raw : option string) : string :=
  let raw_lower := PyStr.lower (default "" raw) in
  if PyStr.contains "no video formats found" raw_lower then msg_no_video
  else if PyStr.contains "instagram sent an empty media response" raw_lower
       || PyStr.contains "instagram api is not granting access" raw_lower
       || PyStr.contains "http error 400" raw_lower
       || PyStr.contains "login session is not accepted" raw_lower
  then msg_private
  else if PyStr.contains "unable to extract data" raw_lower then msg_unable
  else if PyStr.contains
            "functionality for this site has been marked as broken" raw_lower
  then msg_broken
  else msg_unknown.

(** The translator's rules as an ordered table: the substrings of a rule and
    its message. *)
Definition error_rules : list (list string * string) :=
  [ (["no video formats found"], msg_no_video);
    (["instagram sent an empty media response";
      "instagram api is not granting access";
      "http error 400";
      "login session is not accepted"], msg_private);
    (["unable to extract data"], msg_unable);
    (["functionality for this site has been marked as broken"], msg_broken) ].

(** The message of the first rule of [rules] one of whose substrings occurs
    in [text], and [dflt] when there is none. *)
Fixpoint first_match (rules : list (list string * string)) (dflt text : string)
  : string :=
  match rules with
  | [] => dflt
  | (subs, msg) :: rest =>
      if any_in subs text then msg else first_match rest dflt text
  end.

(** ** 1. Credential provisioner *)

Definition COOKIE_FILE_MAIN : string := "/tmp/www.instagram.com_cookies_main.txt".
Definition COOKIE_FILE_ALT : string := "/tmp/www.instagram.com_cookies_alt.txt".

(** The names the module has bound when line 36 runs: what its [import]
    statements bring in, the two path constants and the function itself.
    A name that is neither here nor a builtin raises [NameError] when it is
    evaluated. *)
Definition module_globals : list string :=
  [ "os"; "threading"; "datetime"; "st"; "FastAPI"; "Request"; "JSONResponse";
    "uvicorn"; "YoutubeDL"; "COOKIE_FILE_MAIN"; "COOKIE_FILE_ALT";
    "write_cookie_from_secret" ].

Definition is_bound (name : string) : bool :=
  existsb (String.eqb name) module_globals.

Definition name_error (name : string) : string :=
  "name '" +:+ name +:+ "' is not defined".

(** [if os.path.exists(path): os.remove(path)]. *)
Definition remove_if_exists (path : string) (fs : gmap string string)
  : gmap string string :=
  match fs !! path with
  | Some _ => delete path fs
  | None => fs
  end.

(** [write_cookie_from_secret]: the secret store [secrets] is read, the file
    system [fs] (path to content) is read and written.  The result is the
    returned flag with the new file system, or the exception raised; an
    exception leaves [fs] as it was. *)
Definition write_cookie_from_secret
    (secrets : gmap string string) (secret_key path : string)
    (fs : gmap string string) : result (bool * gmap string string) :=
  let value := default "" (secrets !! secret_key) in
  if negb (PyStr.truthy value) || negb (PyStr.truthy (PyStr.strip value)) then
    Ok (false, remove_if_exists path fs)
  else if is_bound "Path" then
    Ok (true, <[path := value]> fs)
  else
    Raise (name_error "Path").

Definition msg_main_missing : string :=
  "INSTAGRAM_COOKIE_MAIN is not set or empty in Streamlit secrets. " +:+
  "Set it in the app's Secrets section.".

(** Lines 36 to 53, the module's start: both cookie files are provisioned,
    a missing main cookie raises, and the pool is built, main first.  [Ok]
    carries [cookie_pool] and the file system the service then runs on. *)
Definition startup (secrets : gmap string string) (fs : gmap string string)
  : result (list string * gmap string string) :=
  match write_cookie_from_secret secrets "INSTAGRAM_COOKIE_MAIN" COOKIE_FILE_MAIN fs with
  | Raise e => Raise e
  | Ok (main_ok, fs1) =>
      match write_cookie_from_secret secrets "INSTAGRAM_COOKIE_ALT" COOKIE_FILE_ALT fs1 with
      | Raise e => Raise e
      | Ok (alt_ok, fs2) =>
          if negb main_ok then Raise msg_main_missing
          else
            let cookie_pool := [COOKIE_FILE_MAIN] in
            let cookie_pool :=
              if alt_ok then (cookie_pool ++ [COOKIE_FILE_ALT])%list else cookie_pool in
            Ok (cookie_pool, fs2)
      end
  end.

(** ** Calendar time: [datetime.fromtimestamp] and [strftime] *)

Module PyTime.
Open Scope Z_scope.

Record datetime : Type := mk_datetime
  { year : Z; month : Z; day : Z; hour : Z; minute : Z; second : Z }.

(** The proleptic Gregorian date of a day number (days since 1970-01-01),
    computed on 400-year eras that start on a 1st of March. *)
Definition civil_from_days (days : Z) : Z * Z * Z :=
  let z := days + 719468 in
  let era := z / 146097 in
  let doe := z - era * 146097 in
  let yoe := (doe - doe / 1460 + doe / 36524 - doe / 146096) / 365 in
  let doy := doe - (365 * yoe + yoe / 4 - yoe / 100) in
  let mp := (5 * doy + 2) / 153 in
  let d := doy - (153 * mp + 2) / 5 + 1 in
  let m := if mp <? 10 then mp + 3 else mp - 9 in
  let y := yoe + era * 400 + (if m <=? 2 then 1 else 0) in
  (y, m, d).

(** The day number of a date: the calendar read the other way, which the
    properties below use to say what a date stands for. *)
Definition days_from_civil (y m d : Z) : Z :=
  let y := if m <=? 2 then y - 1 else y in
  let era := y / 400 in
  let yoe := y - era * 400 in
  let doy := (153 * (if 2 <? m then m - 3 else m + 9) + 2) / 5 + d - 1 in
  let doe := yoe * 365 + yoe / 4 - yoe / 100 + doy in
  era * 146097 + doe - 719468.

(** The broken-down local time of an epoch second, as [localtime] of a
    POSIX system gives it (days of 86400 seconds), [utc_offset] being the
    zone's offset from UTC, in seconds, at that instant. *)
Definition localtime (utc_offset : Z -> Z) (ts : Z) : datetime :=
  let t := ts + utc_offset ts in
  let '(y, m, d) := civil_from_days (t / 86400) in
  let s := t mod 86400 in
  mk_datetime y m d (s / 3600) (s mod 3600 / 60) (s mod 60).

Definition MINYEAR : Z := 1.
Definition MAXYEAR : Z := 9999.

(** [datetime.fromtimestamp(ts)] for a whole number of seconds: a
    [datetime] holds years 1 to 9999 and the call raises outside them.
    CPython also converts the instant one day earlier, to tell a repeated
    hour, and raises when that one falls before year 1, as it does on the
    first local day of year 1: this look-back is not carried here, and the
    properties of a call that returns are stated for local years from 2
    on.  On an instant the C library cannot convert, the exception is an
    [OSError] or an [OverflowError] with a text of its own. *)
Definition fromtimestamp (utc_offset : Z -> Z) (ts : Z) : result datetime :=
  let dt := localtime utc_offset ts in
  if (MINYEAR <=? year dt) && (year dt <=? MAXYEAR) then Ok dt
  else Raise ("year " +:+ pretty (year dt) +:+ " is out of range").

(** [s.zfill(width)] for a string of digits. *)
Definition zfill (width : nat) (s : string) : string :=
  String.concat "" (replicate (width - String.length s)%nat "0") +:+ s.

(** The [%Y] of [strftime].  The C library prints the year in decimal, and
    whether a year below 1000 gets leading zeros depends on the platform
    and on the Python version: [pads_year] says which. *)
Definition format_Y (pads_year : bool) (y : Z) : string :=
  if pads_year then zfill 4 (pretty y) else pretty y.

(** [%m], [%d], [%H], [%M], [%S]: two digits. *)
Definition format_2 (n : Z) : string := zfill 2 (pretty n).

(** [dt.strftime("%Y-%m-%d")]. *)
Definition strftime_date (pads_year : bool) (dt : datetime) : string :=
  format_Y pads_year (year dt) +:+ "-" +:+ format_2 (month dt)
  +:+ "-" +:+ format_2 (day dt).

(** [dt.strftime("%H:%M:%S")]. *)
Definition strftime_time (dt : datetime) : string :=
  format_2 (hour dt) +:+ ":" +:+ format_2 (minute dt)
  +:+ ":" +:+ format_2 (second dt).

(** What the formats [YYYY-MM-DD] and [HH:MM:SS] mean: fixed-width decimal
    fields. *)
Definition digit (n : Z) : ascii := ascii_of_N (48 + Z.to_N n).

Definition two_digits (n : Z) : string :=
  String (digit (n / 10)) (String (digit (n mod 10)) "").

Definition four_digits (n : Z) : string :=
  String (digit (n / 1000)) (String (digit (n / 100 mod 10))
    (String (digit (n / 10 mod 10)) (String (digit (n mod 10)) ""))).

Definition YYYY_MM_DD (y m d : Z) : string :=
  four_digits y +:+ "-" +:+ two_digits m +:+ "-" +:+ two_digits d.

Definition HH_MM_SS (h m s : Z) : string :=
  two_digits h +:+ ":" +:+ two_digits m +:+ ":" +:+ two_digits s.

End PyTime.

(** ** What the service runs on *)

(** The record [ydl.extract_info] returns, with the fields the service
    reads; a key that is missing or holds [None] is [None]. *)
Module Info.
Record t : Type := mk
  { timestamp : option Z;
    view_count : option Z;
    comment_count : option Z;
    like_count : option Z;
    uploader : option string;
    uploader_id : option string }.
End Info.

(** The dict [get_instagram_metadata] returns. *)
Module Meta.
Record t : Type := mk
  { plays : option Z;
    comments : option Z;
    likes : option Z;
    pub_date : option string;
    pub_time : option string;
    insta_id : option string }.
End Meta.

(** The environment of a run: the extraction library as a function of the
    URL and the cookie file it is given, the server's time zone, and the
    platform's way of printing a year. *)
Record platform : Type := mk_platform
  { extract_info : string -> string -> result Info.t;
    utc_offset : Z -> Z;
    pads_year : bool }.

(** [bool(ts)] for an optional number: [None] and 0 are false. *)
Definition truthy_num (ts : option Z) : bool :=
  match ts with
  | Some n => negb (n =? 0)%Z
  | None => false
  end.

(** [a or b] on optional strings: [a] when it is a non-empty string. *)
Definition or_str (a b : option string) : option string :=
  match a with
  | Some s => if PyStr.truthy s then a else b
  | None => b
  end.

(** ** 4. Metadata fetcher *)

Definition get_instagram_metadata (P : platform) (url cookie_file : string)
  : result Meta.t :=
  match extract_info P url cookie_file with
  | Raise e => Raise e
  | Ok info =>
      let ts := Info.timestamp info in
      let pub_date :=
        if truthy_num ts then
          match PyTime.fromtimestamp (utc_offset P) (default 0%Z ts) with
          | Ok dt => Ok (Some (PyTime.strftime_date (pads_year P) dt))
          | Raise e => Raise e
          end
        else Ok None in
      let pub_time :=
        if truthy_num ts then
          match PyTime.fromtimestamp (utc_offset P) (default 0%Z ts) with
          | Ok dt => Ok (Some (PyTime.strftime_time dt))
          | Raise e => Raise e
          end
        else Ok None in
      match pub_date with
      | Raise e => Raise e
      | Ok pub_date =>
          match pub_time with
          | Raise e => Raise e
          | Ok pub_time =>
              Ok (Meta.mk (Info.view_count info)
                          (Info.comment_count info)
                          (Info.like_count info)
                          pub_date
                          pub_time
                          (or_str (Info.uploader info) (Info.uploader_id info)))
          end
      end
  end.

(** ** JSON values and the response *)

(** What [await request.json()] returns and what a response holds; numbers
    are integers. *)
#[warnings="-register-all"]
Inductive json : Type :=
| JNull
| JBool (b : bool)
| JInt (n : Z)
| JStr (s : string)
| JList (l : list json)
| JDict (d : list (string * json)).

(** [bool(v)]. *)
Definition truthy_json (v : json) : bool :=
  match v with
  | JNull => false
  | JBool b => b
  | JInt n => negb (n =? 0)%Z
  | JStr s => PyStr.truthy s
  | JList l => match l with [] => false | _ => true end
  | JDict d => match d with [] => false | _ => true end
  end.

Definition type_name (v : json) : string :=
  match v with
  | JNull => "NoneType"
  | JBool _ => "bool"
  | JInt _ => "int"
  | JStr _ => "str"
  | JList _ => "list"
  | JDict _ => "dict"
  end.

Definition attribute_error (v : json) (attr : string) : string :=
  "'" +:+ type_name v +:+ "' object has no attribute '" +:+ attr +:+ "'".

(** [d.get(key)] on the items of a dict, whose keys are distinct: the value
    of [key], else [None]. *)
Fixpoint dict_get (key : string) (d : list (string * json)) : json :=
  match d with
  | [] => JNull
  | (k, v) :: d' => if String.eqb key k then v else dict_get key d'
  end.

(** The body of a response: the seven keys of the JSON object. *)
Module Resp.
Record t : Type := mk
  { plays : json;
    comments : json;
    likes : json;
    pub_date : json;
    pub_time : json;
    insta_id : json;
    error : json }.
End Resp.

Inductive response : Type :=
| JSONResponse (content : Resp.t) (status_code : Z).

(** The body of every response that reports an error: empty strings and the
    message. *)
Definition error_body (msg : string) : Resp.t :=
  Resp.mk (JStr "") (JStr "") (JStr "") (JStr "") (JStr "") (JStr "") (JStr msg).

(** [int(x) if x is not None else ""]: a count is an integer here, and
    [int] leaves an integer as it is. *)
Definition int_or_empty (x : option Z) : json :=
  match x with
  | Some n => JInt n
  | None => JStr ""
  end.

(** [x or ""] on an optional string. *)
Definition str_or_empty (x : option string) : json :=
  JStr (default "" (or_str x (Some ""))).

(** ** 6. The HTTP handler *)

(** The variables of the loop over the cookie pool, and [tried]: the cookie
    files handed to [get_instagram_metadata] so far, in the order of the
    calls (a record of the run, which the code does not keep). *)
Record loop_state : Type := mk_loop_state
  { last_error_raw : option string;
    success : bool;
    meta : option Meta.t;
    tried : list string }.

Definition loop_init : loop_state := mk_loop_state None false None [].

(** [for cookie_idx, cookie_file in enumerate(cookie_pool)], from index
    [cookie_idx] on, [rest] being the cookies not yet visited and [pool_len]
    the value of [len(cookie_pool)].  Returning [st] without a recursive call
    is [break]; the recursive call is [continue]. *)
Fixpoint try_cookies (P : platform) (link : string) (pool_len : nat)
    (cookie_idx : nat) (rest : list string) (st : loop_state) : loop_state :=
  match rest with
  | [] => st
  | cookie_file :: rest' =>
      let tried' := (tried st ++ [cookie_file])%list in
      match get_instagram_metadata P link cookie_file with
      | Ok m =>
          mk_loop_state (last_error_raw st) true (Some m) tried'
      | Raise e =>
          let st' := mk_loop_state (Some e) (success st) (meta st) tried' in
          if (cookie_idx =? 0)%nat && (1 <? pool_len)%nat
             && should_retry_with_alt_cookie (Some e)
          then try_cookies P link pool_len (S cookie_idx) rest' st'
          else st'
      end
  end.

Definition run_pool (P : platform) (link : string) (cookie_pool : list string)
  : loop_state :=
  try_cookies P link (List.length cookie_pool) 0 cookie_pool loop_init.

(** [instagram_metadata]: [request_json] is what [await request.json()]
    gives, [None] when it raises.  [Raise] is an exception that leaves the
    handler. *)
Definition instagram_metadata (P : platform) (cookie_pool : list string)
    (request_json : option json) : result response :=
  match request_json with
  | None => Ok (JSONResponse (error_body "Invalid JSON body.") 400)
  | Some body =>
      match body with
      | JDict d =>
          let v := dict_get "link" d in
          let v := if truthy_json v then v else JStr "" in
          match v with
          | JStr s =>
              let link := PyStr.strip s in
              if negb (PyStr.truthy link) then
                Ok (JSONResponse (error_body "No link provided.") 400)
              else
                match cookie_pool with
                | [] =>
                    Ok (JSONResponse
                          (error_body "No valid Instagram cookie files found on server.")
                          500)
                | _ =>
                    let st := run_pool P link cookie_pool in
                    if negb (success st) then
                      let friendly := simplify_error_message (last_error_raw st) in
                      Ok (JSONResponse (error_body friendly) 200)
                    else
                      match meta st with
                      | None => Raise (attribute_error JNull "get")
                      | Some meta =>
                          let resp :=
                            Resp.mk (int_or_empty (Meta.plays meta))
                                    (int_or_empty (Meta.comments meta))
                                    (int_or_empty (Meta.likes meta))
                                    (str_or_empty (Meta.pub_date meta))
                                    (str_or_empty (Meta.pub_time meta))
                                    (str_or_empty (Meta.insta_id meta))
                                    (JStr "") in
                          Ok (JSONResponse resp 200)
                      end
                end
          | _ => Raise (attribute_error v "strip")
          end
      | _ => Raise (attribute_error body "get")
      end
  end.

(** ** 7. Starting the API server *)

Definition API_SERVER_STARTED : string := "api_server_started".

(** Lines 259 to 265, run each time the script runs: [session_state] is the
    session's [st.session_state], with the flags it holds.  The result says
    whether a server thread was started, and gives the new state; [Raise] is
    the [KeyError] of reading a key that is not there. *)
Definition start_api_once (session_state : gmap string bool)
  : result (bool * gmap string bool) :=
  let session_state :=
    match session_state !! API_SERVER_STARTED with
    | None => <[API_SERVER_STARTED := false]> session_state
    | Some _ => session_state
    end in
  match session_state !! API_SERVER_STARTED with
  | None => Raise ("'" +:+ API_SERVER_STARTED +:+ "'")
  | Some started =>
      if negb started then
        Ok (true, <[API_SERVER_STARTED := true]> session_state)
      else Ok (false, session_state)
  end.

(** ** 8. The manual test of the UI *)

(** What the page shows: the calls to [st.error], [st.success] and
    [st.json], in order. *)
Inductive ui_event : Type :=
| st_error (msg : string)
| st_success (msg : string)
| st_json (shown : Meta.t).

(** Lines 284 to 322, what runs when the button is pressed, [test_url]
    being the text of the input box.  The loop is the handler's loop. *)
Definition manual_test (P : platform) (cookie_pool : list string)
    (test_url : string) : list ui_event :=
  if negb (PyStr.truthy (PyStr.strip test_url)) then
    [st_error "Please enter an Instagram URL."]
  else
    let st := run_pool P (PyStr.strip test_url) cookie_pool in
    if negb (success st) then
      let friendly := simplify_error_message (last_error_raw st) in
      [st_error ("Failed: " +:+ friendly)]
    else
      match meta st with
      | None =>
          [st_success "Success!";
           st_error ("Unexpected error: " +:+ attribute_error JNull "get")]
      | Some meta => [st_success "Success!"; st_json meta]
      end.

(** ** Scenarios *)

(** The record of a post: 100 plays, 2 comments, 10 likes, an uploader, and
    the given timestamp. *)
Definition a_post (timestamp : option Z) : Info.t :=
  Info.mk timestamp (Some 100%Z) (Some 2%Z) (Some 10%Z) (Some "someone") None.

(** A server on UTC whose extraction returns [a_post timestamp] for every
    URL and cookie. *)
Definition utc_platform (timestamp : option Z) : platform :=
  mk_platform (fun _ _ => Ok (a_post timestamp)) (fun _ => 0%Z) false.

(** A server on UTC whose extraction raises [main_error] with the main
    cookie and answers [alt] with any other. *)
Definition main_fails (main_error : string) (alt : result Info.t) : platform :=
  mk_platform
    (fun _ cookie_file =>
       if String.eqb cookie_file COOKIE_FILE_MAIN then Raise main_error else alt)
    (fun _ => 0%Z)
    false.

Definition a_reel : string := "https://www.instagram.com/reel/Cx1/".

(** The request body [{"link": link}]. *)
Definition link_body (link : string) : option json :=
  Some (JDict [("link", JStr link)]).

(** [P] holds of the [n] integers from [lo] on: a bounded check that runs. *)
Fixpoint all_from (P : Z -> bool) (lo : Z) (n : nat) : bool :=
  match n with
  | O => true
  | S n' => P lo && all_from P (lo + 1)%Z n'
  end.

(** * Properties *)

(** ** Strings *)

Module PyStrFacts.
Import PyStr.

(** The two equations of [+:+], which [simpl] does not unfold. *)
Lemma append_nil (s : string) : "" +:+ s = s.
Proof. reflexivity. Qed.

Lemma append_cons (c : ascii) (s t : string) :
  String c s +:+ t = String c (s +:+ t).
Proof. reflexivity. Qed.

Lemma prefix_app (p post : string) : String.prefix p (p +:+ post) = true.
Proof.
  induction p as [|c p IH].
  - rewrite append_nil. now destruct post.
  - rewrite append_cons. simpl.
    destruct (Ascii.ascii_dec c c) as [_|Hne]; [exact IH | now destruct Hne].
Qed.

Lemma prefix_split (p s : string) :
  String.prefix p s = true -> exists post, s = p +:+ post.
Proof.
  revert s; induction p as [|c p IH]; intros s H.
  - now exists s.
  - destruct s as [|c' s]; simpl in H; [discriminate|].
    destruct (Ascii.ascii_dec c c') as [->|_]; [|discriminate].
    destruct (IH _ H) as [post ->]. now exists post.
Qed.

Lemma contains_eq (p s : string) :
  contains p s =
  String.prefix p s
  || match s with "" => false | String _ s' => contains p s' end.
Proof. now destruct s. Qed.

Lemma contains_prefix (p s : string) :
  String.prefix p s = true -> contains p s = true.
Proof. intros H. now rewrite contains_eq, H. Qed.

Lemma contains_app (pre p post : string) :
  contains p (pre +:+ p +:+ post) = true.
Proof.
  induction pre as [|c pre IH].
  - rewrite append_nil. apply contains_prefix, prefix_app.
  - rewrite append_cons, contains_eq, IH. apply orb_true_r.
Qed.

Lemma contains_split (p s : string) :
  contains p s = true -> is_substring p s.
Proof.
  induction s as [|c s IH]; rewrite contains_eq; intros H.
  - rewrite orb_false_r in H. destruct (prefix_split _ _ H) as [post E].
    exists "", post. exact E.
  - apply orb_true_iff in H as [H|H].
    + destruct (prefix_split _ _ H) as [post E]. exists "", post. exact E.
    + destruct (IH H) as (pre & post & ->). now exists (String c pre), post.
Qed.

(** [contains] decides the substring relation. *)
Lemma contains_iff (p s : string) :
  contains p s = true <-> is_substring p s.
Proof.
  split; [apply contains_split|].
  intros (pre & post & ->). apply contains_app.
Qed.

Lemma any_in_iff (ps : list string) (text : string) :
  any_in ps text = true <-> exists p, In p ps /\ is_substring p text.
Proof.
  unfold any_in. rewrite existsb_exists.
  split; intros (p & Hin & H); exists p; split; auto; now apply contains_iff.
Qed.

Lemma prefix_cons (c x : ascii) (p s : string) :
  String.prefix (String c p) (String x s)
  = if Ascii.ascii_dec c x then String.prefix p s else false.
Proof. reflexivity. Qed.

Lemma prefix_head (c x : ascii) (p s : string) :
  c <> x -> String.prefix (String c p) (String x s) = false.
Proof. intros H. rewrite prefix_cons. now destruct (Ascii.ascii_dec c x). Qed.

Lemma contains_head (c x : ascii) (p s : string) :
  c <> x -> contains (String c p) (String x s) = contains (String c p) s.
Proof. intros H. now rewrite contains_eq, prefix_head. Qed.

Lemma lower_bytes_app (a b : string) :
  lower_bytes (a +:+ b) = lower_bytes a +:+ lower_bytes b.
Proof.
  induction a as [|c a IH]; [reflexivity|].
  rewrite append_cons. simpl. now rewrite IH.
Qed.

(** The equations of [lower]. *)
Lemma lower_from_cons (k : nat) (c : ascii) (s : string) :
  lower_from k (String c s) =
  match k with
  | S k' => lower_from k' s
  | O =>
      if String.prefix KELVIN_SIGN (String c s) then "k" +:+ lower_from 2 s
      else if String.prefix CAPITAL_I_WITH_DOT (String c s) then
        "i" +:+ COMBINING_DOT +:+ lower_from 1 s
      else String (lower_char c) (lower_from 0 s)
  end.
Proof. reflexivity. Qed.

Lemma lower_kelvin (t : string) :
  lower (KELVIN_SIGN +:+ t) = String "k" (lower t).
Proof. now destruct t. Qed.

Lemma lower_dotted (t : string) :
  lower (CAPITAL_I_WITH_DOT +:+ t)
  = String "i" (String (ascii_of_N 204) (String (ascii_of_N 135) (lower t))).
Proof. now destruct t. Qed.

Lemma lower_cons (c : ascii) (s : string) :
  String.prefix KELVIN_SIGN (String c s) = false ->
  String.prefix CAPITAL_I_WITH_DOT (String c s) = false ->
  lower (String c s) = String (lower_char c) (lower s).
Proof. intros H1 H2. unfold lower. now rewrite lower_from_cons, H1, H2. Qed.

Lemma lower_cons_other (c : ascii) (s : string) :
  N_of_ascii c <> 226%N -> N_of_ascii c <> 196%N ->
  lower (String c s) = String (lower_char c) (lower s).
Proof.
  intros H1 H2. apply lower_cons; apply prefix_head; intros E; subst c;
    [now apply H1 | now apply H2].
Qed.

Lemma length_kelvin (t : string) :
  String.length (KELVIN_SIGN +:+ t) = S (S (S (String.length t))).
Proof. reflexivity. Qed.

Lemma length_dotted (t : string) :
  String.length (CAPITAL_I_WITH_DOT +:+ t) = S (S (String.length t)).
Proof. reflexivity. Qed.

Lemma lower_bytes_kelvin (t : string) :
  lower_bytes (KELVIN_SIGN +:+ t)
  = String (ascii_of_N 226)
      (String (ascii_of_N 132) (String (ascii_of_N 170) (lower_bytes t))).
Proof. reflexivity. Qed.

Lemma lower_bytes_dotted (t : string) :
  lower_bytes (CAPITAL_I_WITH_DOT +:+ t)
  = String (ascii_of_N 196) (String (ascii_of_N 176) (lower_bytes t)).
Proof. reflexivity. Qed.

(** How a string starts, as [lower] reads it: with nothing, with one of
    the two characters it rewrites, or with a byte it lowers. *)
Lemma lower_view (s : string) :
  s = ""
  \/ (exists t, s = KELVIN_SIGN +:+ t)
  \/ (exists t, s = CAPITAL_I_WITH_DOT +:+ t)
  \/ (exists c s', s = String c s'
        /\ String.prefix KELVIN_SIGN s = false
        /\ String.prefix CAPITAL_I_WITH_DOT s = false).
Proof.
  destruct s as [|c s']; [now left|]. right.
  destruct (String.prefix KELVIN_SIGN (String c s')) eqn:E1;
    [left; exact (prefix_split _ _ E1)|].
  right.
  destruct (String.prefix CAPITAL_I_WITH_DOT (String c s')) eqn:E2;
    [left; exact (prefix_split _ _ E2)|].
  right. now exists c, s'.
Qed.

(** A byte beyond ASCII is the lower case of itself only. *)
Lemma lower_char_high (c : ascii) :
  (128 <= N_of_ascii (lower_char c))%N -> lower_char c = c.
Proof.
  unfold lower_char. cbv zeta.
  destruct ((65 <=? N_of_ascii c)%N && (N_of_ascii c <=? 90)%N) eqn:E;
    [|reflexivity].
  apply andb_true_iff in E as [E1 E2].
  apply N.leb_le in E1, E2.
  rewrite N_ascii_embedding by lia. lia.
Qed.

Lemma plain_cons (c : ascii) (p : string) :
  plain (String c p) = true ->
  (N_of_ascii c < 128)%N /\ N_of_ascii c <> 107%N
  /\ (p = "" -> N_of_ascii c <> 105%N) /\ plain p = true.
Proof.
  simpl. rewrite !andb_true_iff, !negb_true_iff, N.ltb_lt, N.eqb_neq.
  intros [[[H1 H2] H3] H4]. repeat split; try assumption.
  intros ->. now apply N.eqb_neq, negb_true_iff.
Qed.

(** A plain text starts the lower-cased text exactly when it starts the
    text lowered byte by byte. *)
Lemma prefix_lower (p : string) :
  plain p = true ->
  forall s, String.prefix p (lower s) = String.prefix p (lower_bytes s).
Proof.
  induction p as [|c p IH]; intros Hp s.
  - now destruct (lower s), (lower_bytes s).
  - apply plain_cons in Hp as (Hc & Hk & Hi & Hp).
    destruct (lower_view s) as [->|[[t ->]|[[t ->]|(x & s' & -> & E1 & E2)]]].
    + reflexivity.
    + rewrite lower_kelvin, lower_bytes_kelvin.
      rewrite !prefix_head; [reflexivity | |];
        intros ->; [vm_compute in Hc; discriminate | now apply Hk].
    + rewrite lower_dotted, lower_bytes_dotted.
      rewrite (prefix_head c (ascii_of_N 196))
        by (intros ->; vm_compute in Hc; discriminate).
      rewrite prefix_cons.
      destruct (Ascii.ascii_dec c "i") as [->|_]; [|reflexivity].
      destruct p as [|c' p]; [now destruct Hi|].
      apply plain_cons in Hp as (Hc' & _).
      apply prefix_head. intros ->. vm_compute in Hc'. discriminate.
    + rewrite (lower_cons _ _ E1 E2). simpl lower_bytes. rewrite !prefix_cons.
      destruct (Ascii.ascii_dec c (lower_char x)); [apply IH, Hp | reflexivity].
Qed.

(** A plain text occurs in the lower-cased text exactly when it occurs in
    the text lowered byte by byte. *)
Lemma contains_lower (p : string) :
  plain p = true ->
  forall s, contains p (lower s) = contains p (lower_bytes s).
Proof.
  intros Hp s.
  destruct p as [|c p].
  { rewrite !contains_eq. now destruct (lower s), (lower_bytes s). }
  pose proof (plain_cons _ _ Hp) as (Hc & Hk & Hi & Hp').
  assert (Hhigh : forall n, (128 <= n < 256)%N -> c <> ascii_of_N n).
  { intros n Hn ->. rewrite N_ascii_embedding in Hc; lia. }
  remember (String.length s) as n eqn:Hn.
  revert s Hn. induction n as [n IH] using lt_wf_ind. intros s Hn.
  destruct (lower_view s) as [->|[[t ->]|[[t ->]|(x & s' & -> & E1 & E2)]]].
  - reflexivity.
  - rewrite lower_kelvin, lower_bytes_kelvin.
    rewrite !contains_head; try (apply Hhigh; lia).
    + apply (IH (String.length t)); [rewrite Hn, length_kelvin; lia | reflexivity].
    + intros ->. now apply Hk.
  - rewrite lower_dotted, lower_bytes_dotted.
    rewrite (contains_head c (ascii_of_N 196)), (contains_head c (ascii_of_N 176))
      by (apply Hhigh; lia).
    rewrite (contains_eq _ (String "i" _)).
    assert (Hpre : String.prefix (String c p)
                     (String "i" (String (ascii_of_N 204)
                                    (String (ascii_of_N 135) (lower t)))) = false).
    { rewrite prefix_cons.
      destruct (Ascii.ascii_dec c "i") as [->|_]; [|reflexivity].
      destruct p as [|c' p]; [now destruct Hi|].
      apply plain_cons in Hp' as (Hc' & _).
      apply prefix_head. intros ->. vm_compute in Hc'. discriminate. }
    rewrite Hpre, orb_false_l.
    rewrite !contains_head by (apply Hhigh; lia).
    apply (IH (String.length t)); [rewrite Hn, length_dotted; lia | reflexivity].
  - rewrite (lower_cons _ _ E1 E2). simpl lower_bytes.
    rewrite (contains_eq _ (String _ (lower s'))),
            (contains_eq _ (String _ (lower_bytes s'))).
    f_equal.
    + rewrite !prefix_cons. destruct (Ascii.ascii_dec c (lower_char x));
        [now apply prefix_lower | reflexivity].
    + apply (IH (String.length s')); [rewrite Hn; simpl; lia | reflexivity].
Qed.

(** Plain texts are looked for in the lower-cased text as in the text
    lowered byte by byte, so one that occurs still occurs with any text
    around. *)
Lemma any_in_lower (ps : list string) (s : string) :
  forallb plain ps = true ->
  any_in ps (lower s) = any_in ps (lower_bytes s).
Proof.
  unfold any_in. induction ps as [|p ps IH]; [reflexivity|].
  cbn [forallb existsb]. intros [Hp Hps]%andb_true_iff.
  now rewrite (contains_lower p Hp), IH.
Qed.

Lemma append_assoc (a b c : string) : (a +:+ b) +:+ c = a +:+ (b +:+ c).
Proof.
  induction a as [|x a IH]; [reflexivity|].
  rewrite !append_cons. now rewrite IH.
Qed.

Lemma any_in_lower_around (ps : list string) (pre s post : string) :
  forallb plain ps = true ->
  any_in ps (lower s) = true ->
  any_in ps (lower (pre +:+ s +:+ post)) = true.
Proof.
  intros Hps. rewrite !(any_in_lower ps _ Hps), !any_in_iff.
  intros (p & Hin & a & b & Hs). exists p. split; [exact Hin|].
  rewrite !lower_bytes_app, Hs.
  exists (lower_bytes pre +:+ a), (b +:+ lower_bytes post).
  now rewrite !append_assoc.
Qed.

(** When the lower-cased text starts with a byte beyond ASCII, the text
    starts with that byte. *)
Lemma lower_head_high (s r : string) (c : ascii) :
  lower s = String c r -> (128 <= N_of_ascii c)%N ->
  exists s', s = String c s' /\ r = lower s'.
Proof.
  intros H Hc.
  destruct (lower_view s) as [->|[[t ->]|[[t ->]|(x & s' & -> & E1 & E2)]]].
  - discriminate.
  - rewrite lower_kelvin in H. injection H as <- _.
    vm_compute in Hc. now destruct Hc.
  - rewrite lower_dotted in H. injection H as <- _.
    vm_compute in Hc. now destruct Hc.
  - rewrite (lower_cons _ _ E1 E2) in H. injection H as <- <-.
    rewrite (lower_char_high x Hc). now exists s'.
Qed.

(** Bytes beyond ASCII that start the lower-cased text start the text. *)
Lemma lower_prefix_high (p s : string) :
  (forall c, In c (list_ascii_of_string p) -> (128 <= N_of_ascii c)%N) ->
  String.prefix p (lower s) = true -> String.prefix p s = true.
Proof.
  revert s. induction p as [|c p IH]; intros s Hp H.
  - now destruct s.
  - destruct (prefix_split _ _ H) as [post E]. rewrite append_cons in E.
    destruct (lower_head_high _ _ _ E) as (s' & -> & Hr).
    { apply Hp. now left. }
    rewrite prefix_cons.
    destruct (Ascii.ascii_dec c c) as [_|N]; [|now destruct N].
    apply IH.
    + intros c' Hc'. apply Hp. now right.
    + rewrite <- Hr. apply prefix_app.
Qed.

(** The equations of [lstrip_from] and [rstrip]. *)
Lemma lstrip_from_cons (k : nat) (c : ascii) (s : string) :
  lstrip_from k (String c s) =
  match k with
  | S k' => lstrip_from k' s
  | O => match space_len (String c s) with
         | O => String c s
         | S k' => lstrip_from k' s
         end
  end.
Proof. reflexivity. Qed.

Lemma rstrip_cons (c : ascii) (s : string) :
  rstrip (String c s) = if blank (String c s) then "" else String c (rstrip s).
Proof. reflexivity. Qed.

(** What [lstrip] returns starts with no white space, and a string that
    starts with none is left as it is. *)
Lemma space_len_lstrip_from (s : string) :
  forall k, space_len (lstrip_from k s) = 0.
Proof.
  induction s as [|c s IH]; intros k; [reflexivity|].
  rewrite lstrip_from_cons. destruct k as [|k]; [|apply IH].
  destruct (space_len (String c s)) eqn:E; [exact E | apply IH].
Qed.

Lemma lstrip_fixed (s : string) : space_len s = 0 -> lstrip s = s.
Proof.
  intros H. unfold lstrip. destruct s as [|c s]; [reflexivity|].
  rewrite lstrip_from_cons. now rewrite H.
Qed.

Lemma space_len_le (s : string) : space_len s <= String.length s.
Proof.
  destruct s as [|c1 [|c2 [|c3 s]]]; unfold space_len; cbn [String.length];
    repeat match goal with |- context [if ?b then _ else _] => destruct b end;
    lia.
Qed.

(** A white-space character at the head of a string stays one when text
    follows the string. *)
Lemma space_len_app (a b : string) (k : nat) :
  space_len a = S k -> space_len (a +:+ b) = S k.
Proof.
  destruct a as [|c1 [|c2 [|c3 a]]]; rewrite ?append_cons, ?append_nil;
    unfold space_len.
  - discriminate.
  - destruct (isspace c1); [trivial | discriminate].
  - destruct (isspace c1); [trivial|].
    cbv zeta.
    destruct ((N_of_ascii c1 =? 194)%N
              && ((N_of_ascii c2 =? 133)%N || (N_of_ascii c2 =? 160)%N));
      [trivial | discriminate].
  - trivial.
Qed.

Lemma lstrip_from_app (a b : string) :
  forall k, k <= String.length a -> lstrip_from k a = "" ->
            lstrip_from k (a +:+ b) = lstrip b.
Proof.
  induction a as [|c a IH]; intros k Hk H.
  - simpl in Hk. assert (k = 0) as -> by lia. reflexivity.
  - rewrite append_cons, lstrip_from_cons. rewrite lstrip_from_cons in H.
    simpl in Hk. destruct k as [|k].
    + destruct (space_len (String c a)) as [|j] eqn:E; [discriminate|].
      pose proof (space_len_le (String c a)) as Hle. rewrite E in Hle.
      simpl in Hle.
      change (String c (a +:+ b)) with (String c a +:+ b).
      rewrite (space_len_app _ b _ E). apply IH; [lia | exact H].
    + apply IH; [lia | exact H].
Qed.

(** White space followed by white space is white space. *)
Lemma blank_app (a b : string) :
  blank a = true -> blank b = true -> blank (a +:+ b) = true.
Proof.
  unfold blank, lstrip. intros Ha Hb.
  rewrite (lstrip_from_app a b 0); [exact Hb | lia |].
  destruct (lstrip_from 0 a); [reflexivity | discriminate].
Qed.

(** What [rstrip] cuts off is white space. *)
Lemma rstrip_split (s : string) :
  exists w, s = rstrip s +:+ w /\ blank w = true.
Proof.
  induction s as [|c s (w & Hw & Hb)]; [now exists ""|].
  rewrite rstrip_cons. destruct (blank (String c s)) eqn:E.
  - now exists (String c s).
  - exists w. rewrite append_cons, <- Hw. now split.
Qed.

(** A string is blank exactly when stripping leaves nothing. *)
Lemma strip_blank (s : string) : blank s = true <-> strip s = "".
Proof.
  unfold strip, blank. split.
  - intros H. destruct (lstrip s); [reflexivity | discriminate].
  - intros H. destruct (lstrip s) as [|c t] eqn:E; [reflexivity|].
    rewrite rstrip_cons in H.
    assert (Hb : blank (String c t) = false).
    { unfold blank. rewrite lstrip_fixed; [reflexivity|].
      rewrite <- E. apply space_len_lstrip_from. }
    rewrite Hb in H. discriminate.
Qed.

End PyStrFacts.

(** ** Fallback policy and error translator *)

(** Every [contains p text] of the goal becomes a boolean variable. *)
Ltac abstract_contains :=
  repeat match goal with
         | |- context [PyStr.contains ?p ?t] =>
             generalize (PyStr.contains p t); intro
         end.

Ltac case_bools :=
  repeat match goal with
         | b : bool |- _ => destruct b
         end.

Lemma first_match_split (before after : list (list string * string))
    (subs : list string) (msg dflt text : string) :
  (forall r, In r before -> any_in (fst r) text = false) ->
  any_in subs text = true ->
  first_match (before ++ (subs, msg) :: after)%list dflt text = msg.
Proof.
  intros Hbefore Hsubs. induction before as [|[subs' msg'] before IH]; simpl.
  - now rewrite Hsubs.
  - pose proof (Hbefore (subs', msg') (or_introl eq_refl)) as H.
    simpl in H. rewrite H.
    apply IH. intros r Hr. apply Hbefore. now right.
Qed.

Lemma first_match_none (rules : list (list string * string))
    (dflt text : string) :
  (forall r, In r rules -> any_in (fst r) text = false) ->
  first_match rules dflt text = dflt.
Proof.
  intros H. induction rules as [|[subs msg] rules IH]; simpl; [reflexivity|].
  pose proof (H (subs, msg) (or_introl eq_refl)) as H0.
  simpl in H0. rewrite H0.
  apply IH. intros r Hr. apply H. now right.
Qed.

(** The translator is the first-match reading of its rule table. *)
Lemma simplify_error_message_table (raw : option string) :
  simplify_error_message raw =
  first_match error_rules msg_unknown (PyStr.lower (default "" raw)).
Proof.
  unfold simplify_error_message, error_rules, first_match, any_in, existsb.
  cbv zeta. abstract_contains. case_bools; reflexivity.
Qed.

Lemma simplify_error_message_range (raw : option string) :
  In (simplify_error_message raw)
     [msg_no_video; msg_private; msg_unable; msg_broken; msg_unknown].
Proof.
  unfold simplify_error_message. cbv zeta. abstract_contains.
  case_bools; simpl; auto 6.
Qed.

(** C2. [should_retry_with_alt_cookie] is true exactly when the lower-cased
    text contains one of the five fixed substrings; it is false on [None]
    and on the empty string; and the match ignores case: any spelling of
    "http error 400", anywhere in the text, is accepted.  Being a function
    of its argument alone, it has no effect and no hidden input. *)
Theorem should_retry_with_alt_cookie_spec :
  (forall s : string,
      should_retry_with_alt_cookie (Some s) = true <->
      exists p,
        In p [ "http error 400";
               "instagram api is not granting access";
               "instagram sent an empty media response";
               "login session is not accepted";
               "post is private/restricted" ]
        /\ PyStr.is_substring p (PyStr.lower s))
  /\ should_retry_with_alt_cookie None = false
  /\ should_retry_with_alt_cookie (Some "") = false
  /\ (forall pre w post : string,
        PyStr.lower w = "http error 400" ->
        should_retry_with_alt_cookie (Some (pre +:+ w +:+ post)) = true).
Proof.
  split; [|split; [reflexivity|split; [reflexivity|]]].
  - intros s. unfold should_retry_with_alt_cookie. simpl default.
    apply PyStrFacts.any_in_iff.
  - intros pre w post Hw. unfold should_retry_with_alt_cookie. simpl default.
    apply PyStrFacts.any_in_lower_around; [reflexivity|]. now rewrite Hw.
Qed.

(** The policy on an error of the extraction library, spelled with capitals. *)
Lemma should_retry_with_alt_cookie_spec_witness :
  should_retry_with_alt_cookie
    (Some ("ERROR: [Instagram] " +:+ "HTTP Error 400" +:+ ": Bad Request")) = true.
Proof.
  exact (proj2 (proj2 (proj2 should_retry_with_alt_cookie_spec))
           "ERROR: [Instagram] " "HTTP Error 400" ": Bad Request" eq_refl).
Defined.

(** C3. [simplify_error_message] is defined on every input, [None] and the
    empty string included, and never returns the empty string; it returns
    the message of the first rule of the table, in table order, one of whose
    substrings occurs in the lower-cased input; and when no rule matches it
    returns "Unknown error – see server logs.". *)
Theorem simplify_error_message_first_match :
  (forall raw : option string,
      let text := PyStr.lower (default "" raw) in
      simplify_error_message raw
      = first_match error_rules "Unknown error – see server logs." text
      /\ simplify_error_message raw <> ""
      /\ (forall before subs msg after,
            error_rules = (before ++ (subs, msg) :: after)%list ->
            (forall r, In r before -> any_in (fst r) text = false) ->
            any_in subs text = true ->
            simplify_error_message raw = msg)
      /\ ((forall r, In r error_rules -> any_in (fst r) text = false) ->
          simplify_error_message raw = "Unknown error – see server logs."))
  /\ simplify_error_message (Some "") = "Unknown error – see server logs."
  /\ simplify_error_message None = "Unknown error – see server logs.".
Proof.
  split; [|split; reflexivity].
  intros raw text. split; [apply simplify_error_message_table|].
  split; [|split].
  - pose proof (simplify_error_message_range raw) as H. simpl in H.
    intros E. rewrite E in H.
    destruct H as [H|[H|[H|[H|[H|[]]]]]]; discriminate H.
  - intros before subs msg after Hrules Hbefore Hsubs.
    rewrite simplify_error_message_table, Hrules.
    now apply first_match_split.
  - intros Hnone. rewrite simplify_error_message_table.
    now apply first_match_none.
Qed.

(** When "no video formats found" and "http error 400" both occur, the
    first rule of the table wins. *)
Lemma simplify_error_message_first_match_witness :
  simplify_error_message
    (Some "HTTP Error 400: Bad Request; No video formats found")
  = "No downloadable video found (might be an image, carousel, or removed).".
Proof.
  exact (proj1 (proj2 (proj2
           (proj1 simplify_error_message_first_match
              (Some "HTTP Error 400: Bad Request; No video formats found"))))
           [] ["no video formats found"] msg_no_video
           (tl error_rules) eq_refl
           (fun r (H : In r []) => match H with end) eq_refl).
Defined.

(** The rule of the broken extractor spelled with U+212A KELVIN SIGN, which
    [lower] turns into "k". *)
Example simplify_error_message_kelvin_sign :
  simplify_error_message
    (Some ("Functionality for this site has been mar" +:+ PyStr.KELVIN_SIGN
           +:+ "ed as bro" +:+ PyStr.KELVIN_SIGN +:+ "en"))
  = "yt-dlp Instagram extractor is currently broken for this URL.".
Proof. vm_compute. reflexivity. Qed.

(** C4, as the specification words it, fails: on the raw error that is the
    rule's own substring, which holds none of the earlier substrings, the
    translator does not return "Extractor is currently broken for this
    URL.". *)
Lemma simplify_error_message_broken_counterexample :
  PyStr.contains "functionality for this site has been marked as broken"
    (PyStr.lower "functionality for this site has been marked as broken") = true
  /\ any_in [ "no video formats found";
              "instagram sent an empty media response";
              "instagram api is not granting access";
              "http error 400";
              "login session is not accepted";
              "unable to extract data" ]
       (PyStr.lower "functionality for this site has been marked as broken") = false
  /\ simplify_error_message
       (Some "functionality for this site has been marked as broken")
     <> "Extractor is currently broken for this URL.".
Proof. split; [reflexivity|split; [reflexivity|]]. vm_compute. discriminate. Qed.

(** C4, amended. For every input whose lower-cased form contains
    "functionality for this site has been marked as broken" and none of the
    six substrings of the earlier rules, the translator returns "yt-dlp
    Instagram extractor is currently broken for this URL.". *)
Theorem simplify_error_message_broken (raw : string) :
  PyStr.contains "functionality for this site has been marked as broken"
    (PyStr.lower raw) = true ->
  any_in [ "no video formats found";
           "instagram sent an empty media response";
           "instagram api is not granting access";
           "http error 400";
           "login session is not accepted";
           "unable to extract data" ] (PyStr.lower raw) = false ->
  simplify_error_message (Some raw)
  = "yt-dlp Instagram extractor is currently broken for this URL.".
Proof.
  unfold simplify_error_message, any_in, existsb. simpl default. cbv zeta.
  abstract_contains. intros -> H. case_bools; (discriminate H || reflexivity).
Qed.

Lemma simplify_error_message_broken_witness :
  simplify_error_message
    (Some "ERROR: [Instagram] The functionality for this site has been marked as broken, and will probably not work.")
  = "yt-dlp Instagram extractor is currently broken for this URL.".
Proof.
  apply (simplify_error_message_broken
    "ERROR: [Instagram] The functionality for this site has been marked as broken, and will probably not work.");
    reflexivity.
Defined.

(** ** Credential provisioner *)

Lemma remove_if_exists_lookup (path : string) (fs : gmap string string) :
  remove_if_exists path fs !! path = None.
Proof.
  unfold remove_if_exists. destruct (fs !! path) eqn:E.
  - apply lookup_delete_eq.
  - exact E.
Qed.

(** The test of line 26 is the test that nothing is left of the value once
    it is stripped. *)
Lemma blank_test (value : string) :
  negb (PyStr.truthy value) || negb (PyStr.truthy (PyStr.strip value))
  = negb (PyStr.truthy (PyStr.strip value)).
Proof. destruct value as [|c v]; reflexivity. Qed.

(** What [write_cookie_from_secret] does, in full: a blank or missing secret
    removes the file and returns [False]; any other secret raises
    [NameError], the name [Path] being bound by no import. *)
Lemma write_cookie_from_secret_cases
    (secrets : gmap string string) (secret_key path : string)
    (fs : gmap string string) :
  write_cookie_from_secret secrets secret_key path fs =
  if PyStr.truthy (PyStr.strip (default "" (secrets !! secret_key)))
  then Raise "name 'Path' is not defined"
  else Ok (false, remove_if_exists path fs).
Proof.
  unfold write_cookie_from_secret. cbv zeta. rewrite blank_test.
  now destruct (PyStr.truthy _).
Qed.

(** C7. The claim holds for a missing or blank secret and for the fatal
    main slot, and fails for a secret that is present: there the code raises
    [NameError] on [Path], writes no file and returns no flag, so the module
    never gets past its start, whatever the secrets are. *)
Theorem write_cookie_from_secret_present_raises :
  write_cookie_from_secret {[ "INSTAGRAM_COOKIE_MAIN" := "sessionid=abc" ]}
    "INSTAGRAM_COOKIE_MAIN" COOKIE_FILE_MAIN ∅
  = Raise "name 'Path' is not defined"
  /\ (forall (secrets : gmap string string) (secret_key path value : string)
             (fs : gmap string string),
        secrets !! secret_key = Some value ->
        PyStr.strip value <> "" ->
        write_cookie_from_secret secrets secret_key path fs
        = Raise "name 'Path' is not defined")
  /\ (forall (secrets : gmap string string) (secret_key path : string)
             (fs : gmap string string),
        PyStr.strip (default "" (secrets !! secret_key)) = "" ->
        exists fs',
          write_cookie_from_secret secrets secret_key path fs = Ok (false, fs')
          /\ fs' !! path = None
          /\ (forall other, other <> path -> fs' !! other = fs !! other))
  /\ (forall (secrets : gmap string string) (fs : gmap string string),
        PyStr.strip (default "" (secrets !! "INSTAGRAM_COOKIE_MAIN")) = "" ->
        PyStr.strip (default "" (secrets !! "INSTAGRAM_COOKIE_ALT")) = "" ->
        startup secrets fs
        = Raise ("INSTAGRAM_COOKIE_MAIN is not set or empty in Streamlit secrets. "
                 +:+ "Set it in the app's Secrets section."))
  /\ (forall (secrets : gmap string string) (fs : gmap string string),
        exists e, startup secrets fs = Raise e).
Proof.
  assert (Hstart : forall secrets fs, exists e, startup secrets fs = Raise e).
  { intros secrets fs. unfold startup.
    rewrite write_cookie_from_secret_cases.
    destruct (PyStr.truthy
                (PyStr.strip (default "" (secrets !! "INSTAGRAM_COOKIE_MAIN"))));
      [eauto|].
    rewrite write_cookie_from_secret_cases.
    destruct (PyStr.truthy
                (PyStr.strip (default "" (secrets !! "INSTAGRAM_COOKIE_ALT"))));
      simpl; eauto. }
  split; [reflexivity|]. split; [|split; [|split]].
  - intros secrets secret_key path value fs Hget Hstrip.
    rewrite write_cookie_from_secret_cases, Hget. simpl default.
    destruct (PyStr.strip value); [now destruct Hstrip | reflexivity].
  - intros secrets secret_key path fs Hstrip.
    rewrite write_cookie_from_secret_cases, Hstrip. simpl PyStr.truthy. cbv iota.
    exists (remove_if_exists path fs). split; [reflexivity|].
    split; [apply remove_if_exists_lookup|].
    intros other Hne. unfold remove_if_exists.
    destruct (fs !! path); [|reflexivity].
    now apply lookup_delete_ne.
  - intros secrets fs Hmain Halt. unfold startup.
    rewrite write_cookie_from_secret_cases, Hmain. simpl PyStr.truthy. cbv iota.
    now rewrite write_cookie_from_secret_cases, Halt.
  - exact Hstart.
Qed.

(** ** Calendar time *)

Module PyTimeFacts.
Import PyTime.
Open Scope Z_scope.

Ltac div_lia := Z.div_mod_to_equations; lia.

(** A month is 1 to 12 and a day 1 to 31. *)
Lemma civil_from_days_range (days : Z) :
  let '(y, m, d) := civil_from_days days in 1 <= m <= 12 /\ 1 <= d <= 31.
Proof.
  unfold civil_from_days. cbv zeta.
  set (z := days + 719468).
  set (era := z / 146097).
  set (doe := z - era * 146097).
  assert (Hdoe : 0 <= doe <= 146096) by (subst doe era; div_lia).
  clearbody doe. clear era z.
  set (yoe := (doe - doe / 1460 + doe / 36524 - doe / 146096) / 365).
  set (doy := doe - (365 * yoe + yoe / 4 - yoe / 100)).
  assert (Hdoy : 0 <= doy <= 365) by (subst doy yoe; div_lia).
  clearbody doy.
  set (mp := (5 * doy + 2) / 153).
  assert (Hmp : 0 <= mp <= 11) by (subst mp; div_lia).
  assert (Hd : 1 <= doy - (153 * mp + 2) / 5 + 1 <= 31) by (subst mp; div_lia).
  clearbody mp.
  destruct (mp <? 10) eqn:E; [apply Z.ltb_lt in E | apply Z.ltb_ge in E];
    split; lia.
Qed.

(** The date of a day number stands for that day number. *)
Lemma days_from_civil_from_days (days : Z) :
  let '(y, m, d) := civil_from_days days in days_from_civil y m d = days.
Proof.
  unfold civil_from_days. cbv zeta.
  set (z := days + 719468).
  set (era := z / 146097).
  set (doe := z - era * 146097).
  assert (Hdoe : 0 <= doe <= 146096) by (subst doe era; div_lia).
  assert (Hz : days = era * 146097 + doe - 719468) by (subst doe z; lia).
  clearbody doe. clearbody era. clear z.
  set (yoe := (doe - doe / 1460 + doe / 36524 - doe / 146096) / 365).
  assert (Hyoe : 0 <= yoe <= 399) by (subst yoe; div_lia).
  set (doy := doe - (365 * yoe + yoe / 4 - yoe / 100)).
  assert (Hdoy : 0 <= doy <= 365) by (subst doy yoe; div_lia).
  assert (Hdoe' : doe = yoe * 365 + yoe / 4 - yoe / 100 + doy)
    by (subst doy; lia).
  clearbody doy. clearbody yoe.
  set (mp := (5 * doy + 2) / 153).
  assert (Hmp : 0 <= mp <= 11) by (subst mp; div_lia).
  set (d := doy - (153 * mp + 2) / 5 + 1).
  assert (Hd : doy = (153 * mp + 2) / 5 + d - 1) by (subst d; lia).
  clearbody d. clearbody mp.
  unfold days_from_civil.
  destruct (mp <? 10) eqn:E; [apply Z.ltb_lt in E | apply Z.ltb_ge in E].
  - assert (E1 : (mp + 3 <=? 2) = false) by (apply Z.leb_gt; lia).
    assert (E2 : (2 <? mp + 3) = true) by (apply Z.ltb_lt; lia).
    rewrite E1, E2. replace (mp + 3 - 3) with mp by lia.
    replace ((yoe + era * 400 + 0) / 400) with era by div_lia.
    replace (yoe + era * 400 + 0 - era * 400) with yoe by lia. lia.
  - assert (E1 : (mp - 9 <=? 2) = true) by (apply Z.leb_le; lia).
    assert (E2 : (2 <? mp - 9) = false) by (apply Z.ltb_ge; lia).
    rewrite E1, E2. replace (mp - 9 + 9) with mp by lia.
    replace (yoe + era * 400 + 1 - 1) with (yoe + era * 400) by lia.
    replace ((yoe + era * 400) / 400) with era by div_lia.
    replace (yoe + era * 400 - era * 400) with yoe by lia. lia.
Qed.

(** The fields of a local time are in range, and the local time stands for
    the instant it was made from, moved by the zone's offset. *)
Lemma localtime_fields (utc_offset : Z -> Z) (ts : Z) :
  1 <= month (localtime utc_offset ts) <= 12
  /\ 1 <= day (localtime utc_offset ts) <= 31
  /\ 0 <= hour (localtime utc_offset ts) <= 23
  /\ 0 <= minute (localtime utc_offset ts) <= 59
  /\ 0 <= second (localtime utc_offset ts) <= 59
  /\ days_from_civil (year (localtime utc_offset ts))
       (month (localtime utc_offset ts)) (day (localtime utc_offset ts)) * 86400
     + hour (localtime utc_offset ts) * 3600
     + minute (localtime utc_offset ts) * 60
     + second (localtime utc_offset ts)
     = ts + utc_offset ts.
Proof.
  unfold localtime.
  set (t := ts + utc_offset ts).
  pose proof (civil_from_days_range (t / 86400)) as Hr.
  pose proof (days_from_civil_from_days (t / 86400)) as Hd.
  destruct (civil_from_days (t / 86400)) as [[y m] d]. simpl.
  rewrite Hd. destruct Hr as [Hm Hday].
  repeat split; try lia; div_lia.
Qed.

Lemma all_from_spec (P : Z -> bool) (n : nat) :
  forall lo, all_from P lo n = true ->
  forall z, lo <= z < lo + Z.of_nat n -> P z = true.
Proof.
  induction n as [|n IH]; intros lo H z Hz; [lia|].
  simpl in H. apply andb_true_iff in H as [H0 H1].
  destruct (Z.eq_dec z lo) as [->|Hne]; [exact H0|].
  apply (IH (lo + 1) H1). lia.
Qed.

Lemma all_from_range (P : Z -> bool) (lo hi : Z) :
  all_from P lo (Z.to_nat (hi - lo + 1)) = true ->
  forall z, lo <= z <= hi -> P z = true.
Proof.
  intros H z Hz. apply (all_from_spec P _ lo H). lia.
Qed.

(** [%m] and its like print the two digits of a number below 100. *)
Lemma format_2_two_digits (n : Z) :
  0 <= n <= 99 -> format_2 n = two_digits n.
Proof.
  intros Hn. apply String.eqb_eq.
  apply (all_from_range (fun n => String.eqb (format_2 n) (two_digits n)) 0 99);
    [vm_compute; reflexivity | lia].
Qed.

(** [%Y] prints the four digits of a year from 1000 on, padding or not. *)
Lemma format_Y_four_digits (pads : bool) (y : Z) :
  1000 <= y <= 9999 -> format_Y pads y = four_digits y.
Proof.
  intros Hy. apply String.eqb_eq.
  destruct pads.
  - apply (all_from_range
             (fun y => String.eqb (format_Y true y) (four_digits y)) 1000 9999);
      [vm_compute; reflexivity | lia].
  - apply (all_from_range
             (fun y => String.eqb (format_Y false y) (four_digits y)) 1000 9999);
      [vm_compute; reflexivity | lia].
Qed.

Lemma strftime_date_format (pads : bool) (dt : datetime) :
  1000 <= year dt <= 9999 -> 1 <= month dt <= 12 -> 1 <= day dt <= 31 ->
  strftime_date pads dt = YYYY_MM_DD (year dt) (month dt) (day dt).
Proof.
  intros Hy Hm Hd. unfold strftime_date, YYYY_MM_DD.
  rewrite format_Y_four_digits by exact Hy.
  rewrite !format_2_two_digits by lia. reflexivity.
Qed.

Lemma strftime_time_format (dt : datetime) :
  0 <= hour dt <= 23 -> 0 <= minute dt <= 59 -> 0 <= second dt <= 59 ->
  strftime_time dt = HH_MM_SS (hour dt) (minute dt) (second dt).
Proof.
  intros Hh Hm Hs. unfold strftime_time, HH_MM_SS.
  rewrite !format_2_two_digits by lia. reflexivity.
Qed.

Lemma fromtimestamp_in_range (utc_offset : Z -> Z) (ts : Z) :
  1 <= year (localtime utc_offset ts) <= 9999 ->
  fromtimestamp utc_offset ts = Ok (localtime utc_offset ts).
Proof.
  intros [Hlo Hhi]. unfold fromtimestamp, MINYEAR, MAXYEAR. cbv zeta.
  apply Z.leb_le in Hlo, Hhi. now rewrite Hlo, Hhi.
Qed.

Lemma fromtimestamp_out_of_range (utc_offset : Z -> Z) (ts : Z) :
  ~ 1 <= year (localtime utc_offset ts) <= 9999 ->
  exists e, fromtimestamp utc_offset ts = Raise e.
Proof.
  intros H. unfold fromtimestamp, MINYEAR, MAXYEAR. cbv zeta.
  destruct (1 <=? year (localtime utc_offset ts)) eqn:E1;
    destruct (year (localtime utc_offset ts) <=? 9999) eqn:E2; simpl; eauto.
  apply Z.leb_le in E1, E2. now destruct H.
Qed.

End PyTimeFacts.

(** ** Metadata fetcher *)

Section Fetcher.
Variable P : platform.
Variables url cookie_file : string.
Variable info : Info.t.
Hypothesis extracted : extract_info P url cookie_file = Ok info.

(** The fetcher after a successful extraction, in full. *)
Lemma get_instagram_metadata_cases :
  get_instagram_metadata P url cookie_file =
  let counts_and_dates pub_date pub_time :=
    Meta.mk (Info.view_count info) (Info.comment_count info)
            (Info.like_count info) pub_date pub_time
            (or_str (Info.uploader info) (Info.uploader_id info)) in
  match Info.timestamp info with
  | None => Ok (counts_and_dates None None)
  | Some ts =>
      if (ts =? 0)%Z then Ok (counts_and_dates None None)
      else
        match PyTime.fromtimestamp (utc_offset P) ts with
        | Ok dt =>
            Ok (counts_and_dates
                  (Some (PyTime.strftime_date (pads_year P) dt))
                  (Some (PyTime.strftime_time dt)))
        | Raise e => Raise e
        end
  end.
Proof.
  unfold get_instagram_metadata. rewrite extracted. cbv zeta.
  destruct (Info.timestamp info) as [ts|]; simpl; [|reflexivity].
  destruct (ts =? 0)%Z; simpl; [reflexivity|].
  now destruct (PyTime.fromtimestamp (utc_offset P) ts).
Qed.

Lemma get_instagram_metadata_falsy_timestamp :
  Info.timestamp info = None \/ Info.timestamp info = Some 0%Z ->
  get_instagram_metadata P url cookie_file
  = Ok (Meta.mk (Info.view_count info) (Info.comment_count info)
                (Info.like_count info) None None
                (or_str (Info.uploader info) (Info.uploader_id info))).
Proof.
  intros [H|H]; rewrite get_instagram_metadata_cases, H; reflexivity.
Qed.

Lemma get_instagram_metadata_in_range (ts : Z) :
  Info.timestamp info = Some ts -> ts <> 0%Z ->
  (1 <= PyTime.year (PyTime.localtime (utc_offset P) ts) <= 9999)%Z ->
  get_instagram_metadata P url cookie_file
  = Ok (Meta.mk (Info.view_count info) (Info.comment_count info)
                (Info.like_count info)
                (Some (PyTime.strftime_date (pads_year P)
                         (PyTime.localtime (utc_offset P) ts)))
                (Some (PyTime.strftime_time (PyTime.localtime (utc_offset P) ts)))
                (or_str (Info.uploader info) (Info.uploader_id info))).
Proof.
  intros Hts Hnz Hyear. rewrite get_instagram_metadata_cases, Hts. cbv zeta.
  apply Z.eqb_neq in Hnz. rewrite Hnz.
  now rewrite PyTimeFacts.fromtimestamp_in_range.
Qed.

End Fetcher.

(** C8, as stated, fails: a record whose timestamp is present and equal to
    0 gives no date and no time. *)
Lemma get_instagram_metadata_epoch_counterexample :
  exists info m,
    extract_info (utc_platform (Some 0%Z)) a_reel COOKIE_FILE_MAIN = Ok info
    /\ Info.timestamp info = Some 0%Z
    /\ get_instagram_metadata (utc_platform (Some 0%Z)) a_reel COOKIE_FILE_MAIN
       = Ok m
    /\ Meta.pub_date m = None
    /\ Meta.pub_time m = None.
Proof. do 2 eexists. repeat split; reflexivity. Qed.

(** C8, amended. After a successful extraction, a timestamp that is present,
    not 0, and falls in a local year from 1000 to 9999 gives [pub_date] as
    YYYY-MM-DD and [pub_time] as HH:MM:SS, the fields being those of the
    instant in the server's zone (the date and time of day stand for the
    epoch second plus the zone's offset); a timestamp that is absent or 0
    gives neither. *)
Theorem get_instagram_metadata_pub_date_time
    (P : platform) (url cookie_file : string) (info : Info.t) :
  extract_info P url cookie_file = Ok info ->
  (forall ts : Z,
      Info.timestamp info = Some ts -> ts <> 0%Z ->
      (1000 <= PyTime.year (PyTime.localtime (utc_offset P) ts) <= 9999)%Z ->
      exists m y mo d h mi s,
        get_instagram_metadata P url cookie_file = Ok m
        /\ Meta.pub_date m = Some (PyTime.YYYY_MM_DD y mo d)
        /\ Meta.pub_time m = Some (PyTime.HH_MM_SS h mi s)
        /\ (1000 <= y <= 9999 /\ 1 <= mo <= 12 /\ 1 <= d <= 31)%Z
        /\ (0 <= h <= 23 /\ 0 <= mi <= 59 /\ 0 <= s <= 59)%Z
        /\ (PyTime.days_from_civil y mo d * 86400 + h * 3600 + mi * 60 + s
            = ts + utc_offset P ts)%Z)
  /\ (Info.timestamp info = None \/ Info.timestamp info = Some 0%Z ->
      exists m,
        get_instagram_metadata P url cookie_file = Ok m
        /\ Meta.pub_date m = None
        /\ Meta.pub_time m = None).
Proof.
  intros Hinfo. split.
  - intros ts Hts Hnz Hyear.
    destruct (PyTimeFacts.localtime_fields (utc_offset P) ts)
      as (Hmo & Hd & Hh & Hmi & Hs & Hloc).
    assert (Hyear1 : (1 <= PyTime.year (PyTime.localtime (utc_offset P) ts)
                      <= 9999)%Z) by lia.
    exists (Meta.mk (Info.view_count info) (Info.comment_count info)
              (Info.like_count info)
              (Some (PyTime.strftime_date (pads_year P)
                       (PyTime.localtime (utc_offset P) ts)))
              (Some (PyTime.strftime_time (PyTime.localtime (utc_offset P) ts)))
              (or_str (Info.uploader info) (Info.uploader_id info))).
    exists (PyTime.year (PyTime.localtime (utc_offset P) ts)),
           (PyTime.month (PyTime.localtime (utc_offset P) ts)),
           (PyTime.day (PyTime.localtime (utc_offset P) ts)).
    exists (PyTime.hour (PyTime.localtime (utc_offset P) ts)),
           (PyTime.minute (PyTime.localtime (utc_offset P) ts)),
           (PyTime.second (PyTime.localtime (utc_offset P) ts)).
    split; [exact (get_instagram_metadata_in_range P url cookie_file info
                     Hinfo ts Hts Hnz Hyear1)|].
    split; [exact (f_equal Some (PyTimeFacts.strftime_date_format
                                   (pads_year P) _ Hyear Hmo Hd))|].
    split; [exact (f_equal Some (PyTimeFacts.strftime_time_format
                                   _ Hh Hmi Hs))|].
    split; [exact (conj Hyear (conj Hmo Hd))|].
    split; [exact (conj Hh (conj Hmi Hs))|]. exact Hloc.
  - intros H. eexists. split.
    + apply (get_instagram_metadata_falsy_timestamp P url cookie_file info Hinfo H).
    + split; reflexivity.
Qed.

(** The instant 1700000000 on a UTC server: 2023-11-14, 22:13:20. *)
Lemma get_instagram_metadata_pub_date_time_witness :
  exists m y mo d h mi s,
    get_instagram_metadata (utc_platform (Some 1700000000%Z)) a_reel
      COOKIE_FILE_MAIN = Ok m
    /\ Meta.pub_date m = Some (PyTime.YYYY_MM_DD y mo d)
    /\ Meta.pub_time m = Some (PyTime.HH_MM_SS h mi s)
    /\ (1000 <= y <= 9999 /\ 1 <= mo <= 12 /\ 1 <= d <= 31)%Z
    /\ (0 <= h <= 23 /\ 0 <= mi <= 59 /\ 0 <= s <= 59)%Z
    /\ (PyTime.days_from_civil y mo d * 86400 + h * 3600 + mi * 60 + s
        = 1700000000 + utc_offset (utc_platform (Some 1700000000%Z)) 1700000000)%Z.
Proof.
  apply (proj1 (get_instagram_metadata_pub_date_time
                  (utc_platform (Some 1700000000%Z)) a_reel COOKIE_FILE_MAIN
                  _ eq_refl) 1700000000%Z eq_refl).
  - discriminate.
  - vm_compute. split; discriminate.
Defined.

(** The date and time of that instant, run. *)
Example scenario_A_date_time :
  get_instagram_metadata (utc_platform (Some 1700000000%Z)) a_reel
    COOKIE_FILE_MAIN
  = Ok (Meta.mk (Some 100%Z) (Some 2%Z) (Some 10%Z)
                (Some "2023-11-14") (Some "22:13:20") (Some "someone")).
Proof. vm_compute. reflexivity. Qed.

(** C10, as stated, fails on its second half: a timestamp in milliseconds
    is not 0, yet the call raises (the local year is 55840) and no field is
    populated. *)
Lemma get_instagram_metadata_range_counterexample :
  exists info,
    extract_info (utc_platform (Some 1700000000000%Z)) a_reel COOKIE_FILE_MAIN
    = Ok info
    /\ Info.timestamp info = Some 1700000000000%Z
    /\ 1700000000000%Z <> 0%Z
    /\ get_instagram_metadata (utc_platform (Some 1700000000000%Z)) a_reel
         COOKIE_FILE_MAIN
       = Raise "year 55840 is out of range".
Proof.
  eexists. split; [reflexivity|]. split; [reflexivity|].
  split; [discriminate|]. vm_compute. reflexivity.
Qed.

(** C10, amended. The timestamp is tested for truth, not for presence: a
    timestamp of 0 gives the very record a missing timestamp gives, with no
    date and no time.  A timestamp that is not 0 and whose local year is
    from 2 to 9999 gives both fields; a timestamp that is not 0 and whose
    local year is outside 1 to 9999, the years a [datetime] holds, makes the
    call raise.  (In year 1 the first local day raises too, since the
    conversion looks one day back.) *)
Theorem get_instagram_metadata_timestamp_truthiness
    (P : platform) (url cookie_file : string) (info : Info.t) :
  extract_info P url cookie_file = Ok info ->
  (Info.timestamp info = None \/ Info.timestamp info = Some 0%Z ->
   get_instagram_metadata P url cookie_file
   = Ok (Meta.mk (Info.view_count info) (Info.comment_count info)
                 (Info.like_count info) None None
                 (or_str (Info.uploader info) (Info.uploader_id info))))
  /\ (forall ts : Z,
        Info.timestamp info = Some ts -> ts <> 0%Z ->
        (2 <= PyTime.year (PyTime.localtime (utc_offset P) ts) <= 9999)%Z ->
        exists m date time,
          get_instagram_metadata P url cookie_file = Ok m
          /\ Meta.pub_date m = Some date
          /\ Meta.pub_time m = Some time)
  /\ (forall ts : Z,
        Info.timestamp info = Some ts -> ts <> 0%Z ->
        ~ (1 <= PyTime.year (PyTime.localtime (utc_offset P) ts) <= 9999)%Z ->
        exists e, get_instagram_metadata P url cookie_file = Raise e).
Proof.
  intros Hinfo. split; [|split].
  - apply (get_instagram_metadata_falsy_timestamp P url cookie_file info Hinfo).
  - intros ts Hts Hnz Hyear. do 3 eexists. split.
    + apply (get_instagram_metadata_in_range P url cookie_file info Hinfo ts);
        [assumption | assumption | lia].
    + split; reflexivity.
  - intros ts Hts Hnz Hyear.
    rewrite (get_instagram_metadata_cases P url cookie_file info Hinfo), Hts.
    cbv zeta. apply Z.eqb_neq in Hnz. rewrite Hnz.
    destruct (PyTimeFacts.fromtimestamp_out_of_range _ _ Hyear) as [e ->].
    now exists e.
Qed.

(** A timestamp of 0 on a UTC server: the record of a missing timestamp. *)
Lemma get_instagram_metadata_timestamp_truthiness_witness :
  get_instagram_metadata (utc_platform (Some 0%Z)) a_reel COOKIE_FILE_MAIN
  = Ok (Meta.mk (Some 100%Z) (Some 2%Z) (Some 10%Z) None None (Some "someone"))
  /\ get_instagram_metadata (utc_platform (Some 0%Z)) a_reel COOKIE_FILE_MAIN
     = get_instagram_metadata (utc_platform None) a_reel COOKIE_FILE_MAIN.
Proof.
  split.
  - exact (proj1 (get_instagram_metadata_timestamp_truthiness
                    (utc_platform (Some 0%Z)) a_reel COOKIE_FILE_MAIN _ eq_refl)
             (or_intror eq_refl)).
  - reflexivity.
Defined.

(** ** The loop over the cookie pool *)

(** The loop on a pool that is not empty, in full: what it leaves in its
    variables after each way the one or two fetches can go. *)
Lemma run_pool_cases (P : platform) (link c0 : string) (rest : list string) :
  run_pool P link (c0 :: rest) =
  match get_instagram_metadata P link c0 with
  | Ok m => mk_loop_state None true (Some m) [c0]
  | Raise e =>
      match rest with
      | [] => mk_loop_state (Some e) false None [c0]
      | c1 :: _ =>
          if should_retry_with_alt_cookie (Some e) then
            match get_instagram_metadata P link c1 with
            | Ok m => mk_loop_state (Some e) true (Some m) [c0; c1]
            | Raise e' => mk_loop_state (Some e') false None [c0; c1]
            end
          else mk_loop_state (Some e) false None [c0]
      end
  end.
Proof.
  unfold run_pool. simpl.
  destruct (get_instagram_metadata P link c0) as [m|e]; [reflexivity|].
  destruct rest as [|c1 rest']; simpl; [reflexivity|].
  destruct (should_retry_with_alt_cookie (Some e)); [|reflexivity].
  now destruct (get_instagram_metadata P link c1).
Qed.

(** How the loop ends: the cookies it tried, and what the last fetch left. *)
Lemma run_pool_outcome (P : platform) (link c0 : string) (rest : list string) :
  (tried (run_pool P link (c0 :: rest)) = [c0]
   \/ exists c1 rest',
        rest = c1 :: rest' /\ tried (run_pool P link (c0 :: rest)) = [c0; c1])
  /\ (success (run_pool P link (c0 :: rest)) = true ->
      exists c m,
        last (tried (run_pool P link (c0 :: rest))) = Some c
        /\ get_instagram_metadata P link c = Ok m
        /\ meta (run_pool P link (c0 :: rest)) = Some m)
  /\ (success (run_pool P link (c0 :: rest)) = false ->
      exists c e,
        last (tried (run_pool P link (c0 :: rest))) = Some c
        /\ get_instagram_metadata P link c = Raise e
        /\ last_error_raw (run_pool P link (c0 :: rest)) = Some e).
Proof.
  rewrite run_pool_cases.
  destruct (get_instagram_metadata P link c0) as [m0|e0] eqn:E0.
  - split; [now left|]. split; [|discriminate].
    intros _. exists c0, m0. now rewrite E0.
  - destruct rest as [|c1 rest'].
    + split; [now left|]. split; [discriminate|].
      intros _. exists c0, e0. now rewrite E0.
    + destruct (should_retry_with_alt_cookie (Some e0)).
      * destruct (get_instagram_metadata P link c1) as [m1|e1] eqn:E1.
        -- split; [right; now exists c1, rest'|]. split; [|discriminate].
           intros _. exists c1, m1. now rewrite E1.
        -- split; [right; now exists c1, rest'|]. split; [discriminate|].
           intros _. exists c1, e1. now rewrite E1.
      * split; [now left|]. split; [discriminate|].
        intros _. exists c0, e0. now rewrite E0.
Qed.

(** The handler on a request that passes its checks: the response is made
    from what the loop left. *)
Lemma instagram_metadata_valid (P : platform) (cookie_pool : list string)
    (d : list (string * json)) (s : string) :
  dict_get "link" d = JStr s ->
  PyStr.strip s <> "" ->
  cookie_pool <> [] ->
  instagram_metadata P cookie_pool (Some (JDict d)) =
  let st := run_pool P (PyStr.strip s) cookie_pool in
  if negb (success st) then
    Ok (JSONResponse
          (error_body (simplify_error_message (last_error_raw st))) 200)
  else
    match meta st with
    | None => Raise (attribute_error JNull "get")
    | Some meta =>
        Ok (JSONResponse
              (Resp.mk (int_or_empty (Meta.plays meta))
                       (int_or_empty (Meta.comments meta))
                       (int_or_empty (Meta.likes meta))
                       (str_or_empty (Meta.pub_date meta))
                       (str_or_empty (Meta.pub_time meta))
                       (str_or_empty (Meta.insta_id meta))
                       (JStr "")) 200)
    end.
Proof.
  intros Hlink Hstrip Hpool. unfold instagram_metadata. rewrite Hlink.
  assert (Hs : PyStr.truthy s = true).
  { destruct s; [now destruct Hstrip | reflexivity]. }
  simpl truthy_json. rewrite Hs.
  assert (Ht : PyStr.truthy (PyStr.strip s) = true).
  { destruct (PyStr.strip s); [now destruct Hstrip | reflexivity]. }
  rewrite Ht. simpl negb. cbv iota.
  destruct cookie_pool; [now destruct Hpool | reflexivity].
Qed.



Example scenario_B :
  instagram_metadata
    (main_fails "HTTP Error 400: Bad Request" (Ok (a_post (Some 1700000000%Z))))
    [COOKIE_FILE_MAIN; COOKIE_FILE_ALT] (link_body a_reel)
  = Ok (JSONResponse
          (Resp.mk (JInt 100) (JInt 2) (JInt 10) (JStr "2023-11-14")
                   (JStr "22:13:20") (JStr "someone") (JStr "")) 200).
Proof. vm_compute. reflexivity. Qed.

Example scenario_C :
  instagram_metadata
    (main_fails "No video formats found" (Ok (a_post (Some 1700000000%Z))))
    [COOKIE_FILE_MAIN; COOKIE_FILE_ALT] (link_body a_reel)
  = Ok (JSONResponse
          (error_body
             "No downloadable video found (might be an image, carousel, or removed).")
          200).
Proof. vm_compute. reflexivity. Qed.

(** ** The HTTP handler *)

(** A record the fetcher returns carries the counts of the extracted record
    unchanged, and the uploader, or else the uploader id, as [insta_id]. *)
Lemma get_instagram_metadata_ok (P : platform) (url cookie_file : string)
    (m : Meta.t) :
  get_instagram_metadata P url cookie_file = Ok m ->
  exists info,
    extract_info P url cookie_file = Ok info
    /\ Meta.plays m = Info.view_count info
    /\ Meta.comments m = Info.comment_count info
    /\ Meta.likes m = Info.like_count info
    /\ Meta.insta_id m = or_str (Info.uploader info) (Info.uploader_id info).
Proof.
  destruct (extract_info P url cookie_file) as [info|e] eqn:E.
  - rewrite (get_instagram_metadata_cases P url cookie_file info E). cbv zeta.
    intros H. exists info. split; [reflexivity|].
    destruct (Info.timestamp info) as [ts|].
    + destruct (ts =? 0)%Z.
      * injection H as <-. now repeat split.
      * destruct (PyTime.fromtimestamp (utc_offset P) ts); [|discriminate].
        injection H as <-. now repeat split.
    + injection H as <-. now repeat split.
  - unfold get_instagram_metadata. rewrite E. discriminate.
Qed.

Lemma str_or_empty_default (x : option string) :
  str_or_empty x = JStr (default "" x).
Proof. destruct x as [[|c s]|]; reflexivity. Qed.

(** C5. A request whose link is not empty, on a pool that is not empty,
    all of whose fetch attempts raise, is answered with status 200, every
    metadata field the empty string, and as [error] the translation of the
    error raised for the last cookie tried: one of the translator's five
    fixed messages, whatever the text of the error was. *)
Theorem instagram_metadata_all_fail
    (P : platform) (cookie_pool : list string)
    (d : list (string * json)) (s : string) :
  dict_get "link" d = JStr s ->
  PyStr.strip s <> "" ->
  cookie_pool <> [] ->
  (forall c, In c (tried (run_pool P (PyStr.strip s) cookie_pool)) ->
             exists e, get_instagram_metadata P (PyStr.strip s) c = Raise e) ->
  exists c e,
    In c cookie_pool
    /\ last (tried (run_pool P (PyStr.strip s) cookie_pool)) = Some c
    /\ get_instagram_metadata P (PyStr.strip s) c = Raise e
    /\ instagram_metadata P cookie_pool (Some (JDict d))
       = Ok (JSONResponse
               (Resp.mk (JStr "") (JStr "") (JStr "") (JStr "") (JStr "")
                        (JStr "") (JStr (simplify_error_message (Some e))))
               200)
    /\ In (simplify_error_message (Some e))
          [ "No downloadable video found (might be an image, carousel, or removed).";
            "Post is private/restricted or the login session is not accepted.";
            "Unable to extract data for this URL.";
            "yt-dlp Instagram extractor is currently broken for this URL.";
            "Unknown error – see server logs." ].
Proof.
  intros Hlink Hstrip Hpool Hfail.
  destruct cookie_pool as [|c0 rest]; [now destruct Hpool|].
  destruct (run_pool_outcome P (PyStr.strip s) c0 rest) as (Htried & Hok & Hko).
  destruct (success (run_pool P (PyStr.strip s) (c0 :: rest))) eqn:Hsucc.
  - destruct (Hok eq_refl) as (c & m & Hlast & Hfetch & _).
    destruct (Hfail c) as [e He]; [|congruence].
    destruct Htried as [Ht | (c1 & rest' & _ & Ht)]; rewrite Ht in Hlast |- *;
      injection Hlast as <-; simpl; auto.
  - destruct (Hko eq_refl) as (c & e & Hlast & Hfetch & Herr).
    exists c, e. split; [|split; [exact Hlast|split; [exact Hfetch|split]]].
    + destruct Htried as [Ht | (c1 & rest' & -> & Ht)]; rewrite Ht in Hlast;
        injection Hlast as <-; simpl; auto.
    + rewrite (instagram_metadata_valid P (c0 :: rest) d s Hlink Hstrip)
        by discriminate.
      cbv zeta. now rewrite Hsucc, Herr.
    + apply simplify_error_message_range.
Qed.

(** Both cookies fail: the main one on an error the policy accepts, the
    second on a refused session. *)
Lemma instagram_metadata_all_fail_witness :
  exists c e,
    In c [COOKIE_FILE_MAIN; COOKIE_FILE_ALT]
    /\ last (tried (run_pool
                      (main_fails "HTTP Error 400: Bad Request"
                         (Raise "ERROR: Unable to extract data; please report"))
                      (PyStr.strip (" " +:+ a_reel))
                      [COOKIE_FILE_MAIN; COOKIE_FILE_ALT])) = Some c
    /\ get_instagram_metadata
         (main_fails "HTTP Error 400: Bad Request"
                     (Raise "ERROR: Unable to extract data; please report"))
         (PyStr.strip (" " +:+ a_reel)) c = Raise e
    /\ instagram_metadata
         (main_fails "HTTP Error 400: Bad Request"
                     (Raise "ERROR: Unable to extract data; please report"))
         [COOKIE_FILE_MAIN; COOKIE_FILE_ALT]
         (Some (JDict [("link", JStr (" " +:+ a_reel))]))
       = Ok (JSONResponse
               (Resp.mk (JStr "") (JStr "") (JStr "") (JStr "") (JStr "")
                        (JStr "") (JStr (simplify_error_message (Some e))))
               200)
    /\ In (simplify_error_message (Some e))
          [ "No downloadable video found (might be an image, carousel, or removed).";
            "Post is private/restricted or the login session is not accepted.";
            "Unable to extract data for this URL.";
            "yt-dlp Instagram extractor is currently broken for this URL.";
            "Unknown error – see server logs." ].
Proof.
  apply (instagram_metadata_all_fail
           (main_fails "HTTP Error 400: Bad Request"
                       (Raise "ERROR: Unable to extract data; please report"))
           [COOKIE_FILE_MAIN; COOKIE_FILE_ALT]
           [("link", JStr (" " +:+ a_reel))] (" " +:+ a_reel) eq_refl).
  - discriminate.
  - discriminate.
  - intros c Hc. vm_compute in Hc.
    destruct Hc as [<-|[<-|[]]]; eexists; vm_compute; reflexivity.
Defined.

Example all_fail_response :
  instagram_metadata
    (main_fails "HTTP Error 400: Bad Request"
                (Raise "ERROR: Unable to extract data; please report"))
    [COOKIE_FILE_MAIN; COOKIE_FILE_ALT] (link_body a_reel)
  = Ok (JSONResponse (error_body "Unable to extract data for this URL.") 200).
Proof. vm_compute. reflexivity. Qed.



(** On an empty pool a blank link, too, is answered before the pool is
    looked at. *)
Example validation_order_on_empty_pool :
  instagram_metadata (utc_platform None) [] (link_body "  ")
  = Ok (JSONResponse (error_body "No link provided.") 400).
Proof. reflexivity. Qed.

(** A link of white space beyond ASCII, here U+00A0 and U+3000, is blank. *)
Example blank_link_beyond_ascii :
  instagram_metadata (utc_platform None) [COOKIE_FILE_MAIN]
    (link_body (PyStr.bytes [194; 160; 227; 128; 128]%N))
  = Ok (JSONResponse (error_body "No link provided.") 400).
Proof. reflexivity. Qed.



(** C9. The response to a successful fetch is made from the record
    extracted with the cookie the loop stopped at.  It gives each count of
    that record as an integer when it is present, 0 included, and as the
    empty string when it is absent; each of [pub_date], [pub_time] and
    [insta_id] as its string when present and as the empty string when
    absent; and the empty string as [error]; with status 200. *)
Theorem instagram_metadata_success_typing
    (P : platform) (cookie_pool : list string)
    (d : list (string * json)) (s : string) :
  dict_get "link" d = JStr s ->
  PyStr.strip s <> "" ->
  cookie_pool <> [] ->
  success (run_pool P (PyStr.strip s) cookie_pool) = true ->
  exists c info m r,
    In c cookie_pool
    /\ last (tried (run_pool P (PyStr.strip s) cookie_pool)) = Some c
    /\ meta (run_pool P (PyStr.strip s) cookie_pool) = Some m
    /\ extract_info P (PyStr.strip s) c = Ok info
    /\ get_instagram_metadata P (PyStr.strip s) c = Ok m
    /\ instagram_metadata P cookie_pool (Some (JDict d))
       = Ok (JSONResponse r 200)
    /\ Resp.plays r
       = match Info.view_count info with Some n => JInt n | None => JStr "" end
    /\ Resp.comments r
       = match Info.comment_count info with Some n => JInt n | None => JStr "" end
    /\ Resp.likes r
       = match Info.like_count info with Some n => JInt n | None => JStr "" end
    /\ Resp.pub_date r
       = match Meta.pub_date m with Some v => JStr v | None => JStr "" end
    /\ Resp.pub_time r
       = match Meta.pub_time m with Some v => JStr v | None => JStr "" end
    /\ Resp.insta_id r
       = match Meta.insta_id m with Some v => JStr v | None => JStr "" end
    /\ Resp.error r = JStr "".
Proof.
  intros Hlink Hstrip Hpool Hsucc.
  destruct cookie_pool as [|c0 rest]; [now destruct Hpool|].
  destruct (run_pool_outcome P (PyStr.strip s) c0 rest) as (Htried & Hok & _).
  destruct (Hok Hsucc) as (c & m & Hlast & Hfetch & Hmeta).
  destruct (get_instagram_metadata_ok _ _ _ _ Hfetch)
    as (info & Hinfo & Hplays & Hcomments & Hlikes & _).
  exists c, info, m. eexists.
  split.
  { destruct Htried as [Ht | (c1 & rest' & -> & Ht)]; rewrite Ht in Hlast;
      injection Hlast as <-; simpl; auto. }
  split; [exact Hlast|]. split; [exact Hmeta|].
  split; [exact Hinfo|]. split; [exact Hfetch|]. split.
  { rewrite (instagram_metadata_valid P (c0 :: rest) d s Hlink Hstrip)
      by discriminate.
    cbv zeta. rewrite Hsucc, Hmeta. reflexivity. }
  simpl. rewrite Hplays, Hcomments, Hlikes, !str_or_empty_default.
  repeat split;
    try (now destruct (Info.view_count info));
    try (now destruct (Info.comment_count info));
    try (now destruct (Info.like_count info));
    try (now destruct (Meta.pub_date m));
    try (now destruct (Meta.pub_time m));
    now destruct (Meta.insta_id m).
Qed.

(** A post with no plays at all and no like count: 0 stays an integer, the
    missing count becomes the empty string. *)
Lemma instagram_metadata_success_typing_witness :
  exists c info m r,
    In c [COOKIE_FILE_MAIN]
    /\ last (tried (run_pool
           (mk_platform
              (fun _ _ => Ok (Info.mk None (Some 0%Z) (Some 2%Z) None None (Some "42")))
              (fun _ => 0%Z) false)
           (PyStr.strip a_reel) [COOKIE_FILE_MAIN])) = Some c
    /\ meta (run_pool
           (mk_platform
              (fun _ _ => Ok (Info.mk None (Some 0%Z) (Some 2%Z) None None (Some "42")))
              (fun _ => 0%Z) false)
           (PyStr.strip a_reel) [COOKIE_FILE_MAIN]) = Some m
    /\ extract_info
         (mk_platform
            (fun _ _ => Ok (Info.mk None (Some 0%Z) (Some 2%Z) None None (Some "42")))
            (fun _ => 0%Z) false)
         (PyStr.strip a_reel) c = Ok info
    /\ get_instagram_metadata
         (mk_platform
            (fun _ _ => Ok (Info.mk None (Some 0%Z) (Some 2%Z) None None (Some "42")))
            (fun _ => 0%Z) false)
         (PyStr.strip a_reel) c = Ok m
    /\ instagram_metadata
         (mk_platform
            (fun _ _ => Ok (Info.mk None (Some 0%Z) (Some 2%Z) None None (Some "42")))
            (fun _ => 0%Z) false)
         [COOKIE_FILE_MAIN] (Some (JDict [("link", JStr a_reel)]))
       = Ok (JSONResponse r 200)
    /\ Resp.plays r
       = match Info.view_count info with Some n => JInt n | None => JStr "" end
    /\ Resp.comments r
       = match Info.comment_count info with Some n => JInt n | None => JStr "" end
    /\ Resp.likes r
       = match Info.like_count info with Some n => JInt n | None => JStr "" end
    /\ Resp.pub_date r
       = match Meta.pub_date m with Some v => JStr v | None => JStr "" end
    /\ Resp.pub_time r
       = match Meta.pub_time m with Some v => JStr v | None => JStr "" end
    /\ Resp.insta_id r
       = match Meta.insta_id m with Some v => JStr v | None => JStr "" end
    /\ Resp.error r = JStr "".
Proof.
  apply (instagram_metadata_success_typing
           (mk_platform
              (fun _ _ => Ok (Info.mk None (Some 0%Z) (Some 2%Z) None None (Some "42")))
              (fun _ => 0%Z) false)
           [COOKIE_FILE_MAIN] [("link", JStr a_reel)] a_reel eq_refl).
  - discriminate.
  - discriminate.
  - reflexivity.
Defined.

Example zero_is_not_absent :
  instagram_metadata
    (mk_platform
       (fun _ _ => Ok (Info.mk None (Some 0%Z) (Some 2%Z) None None (Some "42")))
       (fun _ => 0%Z) false)
    [COOKIE_FILE_MAIN] (link_body a_reel)
  = Ok (JSONResponse
          (Resp.mk (JInt 0) (JInt 2) (JStr "") (JStr "") (JStr "") (JStr "42")
                   (JStr "")) 200).
Proof. vm_compute. reflexivity. Qed.

(** * Further properties of the code *)

(** ** More on strings *)

Module PyStrMore.
Import PyStr.

(** A substring of a substring is a substring. *)
Lemma is_substring_wrap (p s pre post : string) :
  is_substring p s -> is_substring p (pre +:+ s +:+ post).
Proof.
  intros (a & b & ->). exists (pre +:+ a), (b +:+ post).
  now rewrite !PyStrFacts.append_assoc.
Qed.

Lemma lower_char_idempotent (c : ascii) :
  lower_char (lower_char c) = lower_char c.
Proof. destruct c as [[] [] [] [] [] [] [] []]; reflexivity. Qed.

(** Lower-casing twice is lower-casing once. *)
Lemma lower_idempotent (s : string) : lower (lower s) = lower s.
Proof.
  remember (String.length s) as n eqn:Hn.
  revert s Hn. induction n as [n IH] using lt_wf_ind. intros s Hn.
  destruct (PyStrFacts.lower_view s)
    as [->|[[t ->]|[[t ->]|(x & s' & -> & E1 & E2)]]].
  - reflexivity.
  - rewrite PyStrFacts.lower_kelvin.
    rewrite PyStrFacts.lower_cons_other by (vm_compute; discriminate).
    f_equal. apply (IH (String.length t));
      [rewrite Hn, PyStrFacts.length_kelvin; lia | reflexivity].
  - rewrite PyStrFacts.lower_dotted.
    rewrite !PyStrFacts.lower_cons_other by (vm_compute; discriminate).
    do 3 f_equal. apply (IH (String.length t));
      [rewrite Hn, PyStrFacts.length_dotted; lia | reflexivity].
  - rewrite (PyStrFacts.lower_cons _ _ E1 E2).
    assert (Hsame : forall p,
      (forall c, In c (list_ascii_of_string p) -> (128 <= N_of_ascii c)%N) ->
      String.prefix p (String x s') = false ->
      String.prefix p (String (lower_char x) (lower s')) = false).
    { intros p Hp Hf.
      destruct (String.prefix p (String (lower_char x) (lower s'))) eqn:E;
        [|reflexivity].
      rewrite <- (PyStrFacts.lower_cons _ _ E1 E2) in E.
      apply PyStrFacts.lower_prefix_high in E; [congruence | exact Hp]. }
    rewrite PyStrFacts.lower_cons.
    + rewrite lower_char_idempotent. f_equal.
      apply (IH (String.length s')); [rewrite Hn; simpl; lia | reflexivity].
    + apply Hsame; [|exact E1].
      intros c Hc. vm_compute in Hc.
      destruct Hc as [<-|[<-|[<-|[]]]]; vm_compute; discriminate.
    + apply Hsame; [|exact E2].
      intros c Hc. vm_compute in Hc.
      destruct Hc as [<-|[<-|[]]]; vm_compute; discriminate.
Qed.

Lemma rstrip_idempotent (s : string) : rstrip (rstrip s) = rstrip s.
Proof.
  induction s as [|c s IH]; [reflexivity|].
  rewrite PyStrFacts.rstrip_cons.
  destruct (blank (String c s)) eqn:E; [reflexivity|].
  rewrite PyStrFacts.rstrip_cons, IH.
  destruct (blank (String c (rstrip s))) eqn:E'; [|reflexivity].
  destruct (PyStrFacts.rstrip_split s) as (w & Hw & Hb).
  assert (blank (String c s) = true); [|congruence].
  rewrite Hw at 1.
  change (String c (rstrip s +:+ w)) with (String c (rstrip s) +:+ w).
  now apply PyStrFacts.blank_app.
Qed.

Lemma space_len_rstrip (s : string) :
  space_len s = 0 -> space_len (rstrip s) = 0.
Proof.
  intros H. destruct (space_len (rstrip s)) as [|k] eqn:E; [reflexivity|].
  destruct (PyStrFacts.rstrip_split s) as (w & Hw & _).
  apply (PyStrFacts.space_len_app _ w) in E. rewrite <- Hw in E. congruence.
Qed.

(** Stripping twice is stripping once. *)
Lemma strip_idempotent (s : string) : strip (strip s) = strip s.
Proof.
  unfold strip.
  rewrite (PyStrFacts.lstrip_fixed (rstrip (lstrip s))).
  - apply rstrip_idempotent.
  - apply space_len_rstrip. apply PyStrFacts.space_len_lstrip_from.
Qed.

End PyStrMore.

(** ** Fallback policy and error translator, together *)

(** X1. Text around an error never takes it out of the fallback policy: an
    error the policy accepts is still accepted with any text before and
    after it, in any case. *)
Theorem should_retry_with_alt_cookie_wrapped (pre s post : string) :
  should_retry_with_alt_cookie (Some s) = true ->
  should_retry_with_alt_cookie (Some (pre +:+ s +:+ post)) = true.
Proof.
  unfold should_retry_with_alt_cookie. simpl default.
  now apply PyStrFacts.any_in_lower_around.
Qed.

Lemma should_retry_with_alt_cookie_wrapped_witness :
  should_retry_with_alt_cookie
    (Some ("ERROR: [Instagram] Cx1: " +:+ "Instagram API is not granting access"
           +:+ "; use --cookies")) = true.
Proof.
  apply (should_retry_with_alt_cookie_wrapped
           "ERROR: [Instagram] Cx1: " "Instagram API is not granting access"
           "; use --cookies").
  reflexivity.
Defined.

(** X2. Both helpers read their argument through its lower-cased form only:
    lower-casing the error first changes neither the policy's decision nor
    the translated message, and two errors with the same lower-cased form
    get the same decision and the same message. *)
Theorem helpers_ignore_case :
  (forall s : string,
      should_retry_with_alt_cookie (Some (PyStr.lower s))
      = should_retry_with_alt_cookie (Some s)
      /\ simplify_error_message (Some (PyStr.lower s))
         = simplify_error_message (Some s))
  /\ (forall a b : string,
        PyStr.lower a = PyStr.lower b ->
        should_retry_with_alt_cookie (Some a) = should_retry_with_alt_cookie (Some b)
        /\ simplify_error_message (Some a) = simplify_error_message (Some b)).
Proof.
  split.
  - intros s. unfold should_retry_with_alt_cookie, simplify_error_message.
    simpl default. now rewrite PyStrMore.lower_idempotent.
  - intros a b H. unfold should_retry_with_alt_cookie, simplify_error_message.
    simpl default. now rewrite H.
Qed.

(** X3. How the policy and the translator fit.  An error holding one of the
    four substrings the two share is accepted by the policy, and is
    translated to the private/restricted message unless it also holds "no
    video formats found".  An error the policy accepts without any of these
    four holds "post is private/restricted", the one substring the
    translator does not know, and is never translated to the
    private/restricted message. *)
Theorem policy_and_translator (raw : string) :
  (any_in [ "http error 400";
            "instagram api is not granting access";
            "instagram sent an empty media response";
            "login session is not accepted" ] (PyStr.lower raw) = true ->
   should_retry_with_alt_cookie (Some raw) = true
   /\ (PyStr.contains "no video formats found" (PyStr.lower raw) = false ->
       simplify_error_message (Some raw)
       = "Post is private/restricted or the login session is not accepted."))
  /\ (should_retry_with_alt_cookie (Some raw) = true ->
      any_in [ "http error 400";
               "instagram api is not granting access";
               "instagram sent an empty media response";
               "login session is not accepted" ] (PyStr.lower raw) = false ->
      PyStr.contains "post is private/restricted" (PyStr.lower raw) = true
      /\ simplify_error_message (Some raw)
         <> "Post is private/restricted or the login session is not accepted.").
Proof.
  unfold should_retry_with_alt_cookie, simplify_error_message, retry_patterns,
    any_in, existsb.
  simpl default. cbv zeta. abstract_contains.
  split.
  - intros H. split; [|intros ->]; case_bools;
      (reflexivity || discriminate H).
  - intros H1 H2. case_bools;
      try discriminate H1; try discriminate H2; (split; [reflexivity|]);
      vm_compute; discriminate.
Qed.

(** An error that is retried and then reported as unknown. *)
Lemma policy_and_translator_witness :
  PyStr.contains "post is private/restricted"
    (PyStr.lower "This post is private/restricted") = true
  /\ simplify_error_message (Some "This post is private/restricted")
     <> "Post is private/restricted or the login session is not accepted.".
Proof.
  apply (proj2 (policy_and_translator "This post is private/restricted"));
    reflexivity.
Defined.

(** ** More on the metadata fetcher *)

(** X4. When the fetcher raises.  An error of the extraction is passed on
    unchanged.  When the extraction returned, the fetcher raises only for a
    timestamp that is not 0 and whose local year is not from 2 to 9999; and
    it does raise for every timestamp that is not 0 and whose local year is
    outside 1 to 9999, the years a [datetime] holds. *)
Theorem get_instagram_metadata_raises
    (P : platform) (url cookie_file : string) :
  (forall e : string,
      extract_info P url cookie_file = Raise e ->
      get_instagram_metadata P url cookie_file = Raise e)
  /\ (forall (info : Info.t) (e : string),
        extract_info P url cookie_file = Ok info ->
        get_instagram_metadata P url cookie_file = Raise e ->
        exists ts,
          Info.timestamp info = Some ts
          /\ ts <> 0%Z
          /\ ~ (2 <= PyTime.year (PyTime.localtime (utc_offset P) ts) <= 9999)%Z)
  /\ (forall (info : Info.t) (ts : Z),
        extract_info P url cookie_file = Ok info ->
        Info.timestamp info = Some ts ->
        ts <> 0%Z ->
        ~ (1 <= PyTime.year (PyTime.localtime (utc_offset P) ts) <= 9999)%Z ->
        exists e, get_instagram_metadata P url cookie_file = Raise e).
Proof.
  split; [|split].
  - intros e E. unfold get_instagram_metadata. now rewrite E.
  - intros info e E.
    rewrite (get_instagram_metadata_cases P url cookie_file info E). cbv zeta.
    intros H. destruct (Info.timestamp info) as [ts|] eqn:Ets; [|discriminate].
    destruct (ts =? 0)%Z eqn:Ez; [discriminate|]. apply Z.eqb_neq in Ez.
    exists ts. split; [reflexivity|]. split; [exact Ez|].
    intros Hyear.
    assert (Hin : (1 <= PyTime.year (PyTime.localtime (utc_offset P) ts) <= 9999)%Z)
      by lia.
    rewrite (PyTimeFacts.fromtimestamp_in_range _ _ Hin) in H. discriminate H.
  - intros info ts E Hts Hnz Hyear.
    rewrite (get_instagram_metadata_cases P url cookie_file info E), Hts.
    cbv zeta. apply Z.eqb_neq in Hnz. rewrite Hnz.
    destruct (PyTimeFacts.fromtimestamp_out_of_range _ _ Hyear) as [e ->].
    now exists e.
Qed.

(** A timestamp in milliseconds, and one in the year before year 1. *)
Example get_instagram_metadata_raises_examples :
  (exists e, get_instagram_metadata (utc_platform (Some 1700000000000%Z))
               a_reel COOKIE_FILE_MAIN = Raise e)
  /\ (exists e, get_instagram_metadata (utc_platform (Some (-62135596801)%Z))
                  a_reel COOKIE_FILE_MAIN = Raise e).
Proof. split; eexists; vm_compute; reflexivity. Qed.

(** X5. In every record the fetcher returns, [pub_date] and [pub_time] are
    both present or both absent, and they are absent exactly when the
    extracted timestamp is missing or 0. *)
Theorem get_instagram_metadata_date_time_together
    (P : platform) (url cookie_file : string) (info : Info.t) (m : Meta.t) :
  extract_info P url cookie_file = Ok info ->
  get_instagram_metadata P url cookie_file = Ok m ->
  (Meta.pub_date m = None <-> Meta.pub_time m = None)
  /\ (Meta.pub_date m = None <->
      Info.timestamp info = None \/ Info.timestamp info = Some 0%Z).
Proof.
  intros Hinfo. rewrite (get_instagram_metadata_cases P url cookie_file info Hinfo).
  cbv zeta. destruct (Info.timestamp info) as [ts|].
  - destruct (ts =? 0)%Z eqn:Ez.
    + apply Z.eqb_eq in Ez. subst ts. intros [= <-]. simpl.
      split; split; auto.
    + apply Z.eqb_neq in Ez.
      destruct (PyTime.fromtimestamp (utc_offset P) ts); [|discriminate].
      intros [= <-]. simpl. split; split; try discriminate.
      intros [H|[= H]]; [discriminate | contradiction].
  - intros [= <-]. simpl. split; split; auto.
Qed.

Lemma get_instagram_metadata_date_time_together_witness :
  (Meta.pub_date (Meta.mk (Some 100%Z) (Some 2%Z) (Some 10%Z)
                          (Some "2023-11-14") (Some "22:13:20") (Some "someone"))
   = None <->
   Meta.pub_time (Meta.mk (Some 100%Z) (Some 2%Z) (Some 10%Z)
                          (Some "2023-11-14") (Some "22:13:20") (Some "someone"))
   = None)
  /\ (Meta.pub_date (Meta.mk (Some 100%Z) (Some 2%Z) (Some 10%Z)
                             (Some "2023-11-14") (Some "22:13:20") (Some "someone"))
      = None <->
      Info.timestamp (a_post (Some 1700000000%Z)) = None
      \/ Info.timestamp (a_post (Some 1700000000%Z)) = Some 0%Z).
Proof.
  apply (get_instagram_metadata_date_time_together
           (utc_platform (Some 1700000000%Z)) a_reel COOKIE_FILE_MAIN
           (a_post (Some 1700000000%Z))).
  - reflexivity.
  - vm_compute. reflexivity.
Defined.

(** X6. The author of a returned record is the extracted [uploader] when
    that is a string that is not empty, and otherwise whatever
    [uploader_id] holds: an empty [uploader] falls back like a missing
    one. *)
Theorem get_instagram_metadata_insta_id
    (P : platform) (url cookie_file : string) (info : Info.t) (m : Meta.t) :
  extract_info P url cookie_file = Ok info ->
  get_instagram_metadata P url cookie_file = Ok m ->
  (forall u, Info.uploader info = Some u -> u <> "" ->
             Meta.insta_id m = Some u)
  /\ (Info.uploader info = None \/ Info.uploader info = Some "" ->
      Meta.insta_id m = Info.uploader_id info).
Proof.
  intros Hinfo Hm.
  destruct (get_instagram_metadata_ok P url cookie_file m Hm)
    as (info' & Hinfo' & _ & _ & _ & Hid).
  rewrite Hinfo in Hinfo'. injection Hinfo' as <-. rewrite Hid. split.
  - intros u -> Hu. destruct u; [now destruct Hu | reflexivity].
  - intros [-> | ->]; reflexivity.
Qed.

(** An empty uploader with an uploader id. *)
Lemma get_instagram_metadata_insta_id_witness :
  Meta.insta_id (Meta.mk (Some 0%Z) (Some 2%Z) None None None (Some "42"))
  = Some "42".
Proof.
  apply (proj2 (get_instagram_metadata_insta_id
           (mk_platform
              (fun _ _ => Ok (Info.mk None (Some 0%Z) (Some 2%Z) None (Some "") (Some "42")))
              (fun _ => 0%Z) false)
           a_reel COOKIE_FILE_MAIN
           (Info.mk None (Some 0%Z) (Some 2%Z) None (Some "") (Some "42"))
           (Meta.mk (Some 0%Z) (Some 2%Z) None None None (Some "42"))
           eq_refl eq_refl)).
  right. reflexivity.
Defined.

(** ** More on the HTTP handler *)

(** The handler on a JSON object whose [link] is a string: all it reads of
    the request is the stripped link. *)
Lemma instagram_metadata_link (P : platform) (cookie_pool : list string)
    (d : list (string * json)) (s : string) :
  dict_get "link" d = JStr s ->
  instagram_metadata P cookie_pool (Some (JDict d)) =
  if negb (PyStr.truthy (PyStr.strip s)) then
    Ok (JSONResponse (error_body "No link provided.") 400)
  else
    match cookie_pool with
    | [] =>
        Ok (JSONResponse
              (error_body "No valid Instagram cookie files found on server.") 500)
    | _ =>
        if negb (success (run_pool P (PyStr.strip s) cookie_pool)) then
          Ok (JSONResponse
                (error_body
                   (simplify_error_message
                      (last_error_raw (run_pool P (PyStr.strip s) cookie_pool))))
                200)
        else
          match meta (run_pool P (PyStr.strip s) cookie_pool) with
          | None => Raise (attribute_error JNull "get")
          | Some meta =>
              Ok (JSONResponse
                    (Resp.mk (int_or_empty (Meta.plays meta))
                             (int_or_empty (Meta.comments meta))
                             (int_or_empty (Meta.likes meta))
                             (str_or_empty (Meta.pub_date meta))
                             (str_or_empty (Meta.pub_time meta))
                             (str_or_empty (Meta.insta_id meta))
                             (JStr "")) 200)
          end
    end.
Proof.
  intros Hlink. unfold instagram_metadata. rewrite Hlink.
  destruct s as [|c s]; reflexivity.
Qed.

(** A loop that ended in success left a record; a loop that did not left
    an error, unless the pool was empty. *)
Lemma run_pool_success_meta (P : platform) (link : string)
    (cookie_pool : list string) :
  success (run_pool P link cookie_pool) = true ->
  exists m, meta (run_pool P link cookie_pool) = Some m.
Proof.
  destruct cookie_pool as [|c0 rest]; [discriminate|].
  intros H. destruct (run_pool_outcome P link c0 rest) as (_ & Hok & _).
  destruct (Hok H) as (c & m & _ & _ & Hm). now exists m.
Qed.

Lemma simplify_error_message_nonempty (raw : option string) :
  simplify_error_message raw <> "".
Proof.
  pose proof (simplify_error_message_range raw) as H. simpl in H.
  intros E. rewrite E in H.
  destruct H as [H|[H|[H|[H|[H|[]]]]]]; discriminate H.
Qed.

(** The handler on a JSON object whose [link] is not a string. *)
Lemma instagram_metadata_not_string (P : platform) (cookie_pool : list string)
    (d : list (string * json)) :
  (forall s, dict_get "link" d <> JStr s) ->
  instagram_metadata P cookie_pool (Some (JDict d)) =
  if truthy_json (dict_get "link" d)
  then Raise (attribute_error (dict_get "link" d) "strip")
  else Ok (JSONResponse (error_body "No link provided.") 400).
Proof.
  intros Hns. unfold instagram_metadata.
  destruct (dict_get "link" d) as [|b|n|s|l|d'].
  - reflexivity.
  - now destruct b.
  - simpl. now destruct (n =? 0)%Z.
  - now destruct (Hns s).
  - now destruct l.
  - now destruct d'.
Qed.

(** X7. The handler lets an exception out in two cases and no other: the
    body is JSON but not an object (the [AttributeError] of [body.get]), or
    it is an object whose [link] is true but not a string (the
    [AttributeError] of [strip]).  On every other request it returns a
    response. *)
Theorem instagram_metadata_raises
    (P : platform) (cookie_pool : list string) (request_json : option json)
    (e : string) :
  instagram_metadata P cookie_pool request_json = Raise e <->
  exists body,
    request_json = Some body
    /\ match body with
       | JDict d =>
           truthy_json (dict_get "link" d) = true
           /\ (forall s, dict_get "link" d <> JStr s)
           /\ e = "'" +:+ type_name (dict_get "link" d)
                  +:+ "' object has no attribute 'strip'"
       | _ => e = "'" +:+ type_name body +:+ "' object has no attribute 'get'"
       end.
Proof.
  destruct request_json as [body|].
  2:{ split; [discriminate | intros (body & [=] & _)]. }
  destruct body as [|b|n|s|l|d].
  1-5: (split; [intros [= <-]; eexists; split; reflexivity
               | intros (body & [= <-] & ->); reflexivity]).
  assert (Hcase : (exists s, dict_get "link" d = JStr s)
                  \/ (forall s, dict_get "link" d <> JStr s)).
  { destruct (dict_get "link" d); eauto; right; discriminate. }
  destruct Hcase as [[s Hv] | Hns].
  - rewrite (instagram_metadata_link P cookie_pool d s Hv).
    split.
    + intros H. exfalso.
      destruct (negb (PyStr.truthy (PyStr.strip s))); [discriminate|].
      destruct cookie_pool as [|c0 rest]; [discriminate|].
      destruct (success (run_pool P (PyStr.strip s) (c0 :: rest))) eqn:Hs;
        simpl in H; [|discriminate].
      destruct (run_pool_success_meta _ _ _ Hs) as [m Hm].
      rewrite Hm in H. discriminate.
    + intros (body & [= <-] & _ & Hns & _). now destruct (Hns s).
  - rewrite (instagram_metadata_not_string P cookie_pool d Hns).
    destruct (truthy_json (dict_get "link" d)) eqn:Ht.
    + split.
      * intros [= <-]. exists (JDict d). split; [reflexivity|].
        split; [exact Ht|]. split; [exact Hns | reflexivity].
      * intros (body & [= <-] & _ & _ & ->). reflexivity.
    + split; [discriminate|].
      intros (body & [= <-] & Ht' & _). congruence.
Qed.

(** The bodies [[]] and [{"link": 5}] both leave the handler with an
    exception. *)
Example non_object_body_raises :
  instagram_metadata (utc_platform None) [COOKIE_FILE_MAIN] (Some (JList []))
  = Raise "'list' object has no attribute 'get'"
  /\ instagram_metadata (utc_platform None) [COOKIE_FILE_MAIN]
       (Some (JDict [("link", JInt 5)]))
     = Raise "'int' object has no attribute 'strip'".
Proof. split; reflexivity. Qed.

(** Two runs of the handler agree on every request when their pools are
    both empty or both not, and their loops agree on every link. *)
Lemma instagram_metadata_ext (P P' : platform) (pool pool' : list string)
    (request_json : option json) :
  (pool = [] <-> pool' = []) ->
  (forall link, pool <> [] -> run_pool P link pool = run_pool P' link pool') ->
  instagram_metadata P pool request_json
  = instagram_metadata P' pool' request_json.
Proof.
  intros Hempty Hloop.
  destruct request_json as [body|]; [|reflexivity].
  destruct body as [|b|n|s|l|d]; try reflexivity.
  assert (Hcase : (exists s, dict_get "link" d = JStr s)
                  \/ (forall s, dict_get "link" d <> JStr s)).
  { destruct (dict_get "link" d); eauto; right; discriminate. }
  destruct Hcase as [[s Hv] | Hns].
  - rewrite !(instagram_metadata_link _ _ d s Hv).
    destruct (negb (PyStr.truthy (PyStr.strip s))); [reflexivity|].
    destruct pool as [|c0 rest], pool' as [|c0' rest']; try reflexivity.
    + destruct Hempty as [H _]. discriminate (H eq_refl).
    + destruct Hempty as [_ H]. discriminate (H eq_refl).
    + now rewrite (Hloop (PyStr.strip s)) by discriminate.
  - now rewrite !(instagram_metadata_not_string _ _ d Hns).
Qed.

(** X8. Every response of the handler is one of five kinds: a success (200,
    empty [error]); a failed fetch (200, one of the translator's five
    messages); an unparseable body (400); a missing link (400); an empty
    pool (500).  In the last four every metadata field is the empty string,
    and [error] is not: metadata and error message never come together. *)
Theorem instagram_metadata_outcome
    (P : platform) (cookie_pool : list string) (request_json : option json)
    (r : Resp.t) (status : Z) :
  instagram_metadata P cookie_pool request_json = Ok (JSONResponse r status) ->
  (status = 200%Z /\ Resp.error r = JStr "")
  \/ exists msg,
       msg <> ""
       /\ r = Resp.mk (JStr "") (JStr "") (JStr "") (JStr "") (JStr "") (JStr "")
                      (JStr msg)
       /\ ((status = 200%Z
            /\ In msg
                 [ "No downloadable video found (might be an image, carousel, or removed).";
                   "Post is private/restricted or the login session is not accepted.";
                   "Unable to extract data for this URL.";
                   "yt-dlp Instagram extractor is currently broken for this URL.";
                   "Unknown error – see server logs." ])
           \/ (status = 400%Z /\ msg = "Invalid JSON body.")
           \/ (status = 400%Z /\ msg = "No link provided.")
           \/ (status = 500%Z
               /\ msg = "No valid Instagram cookie files found on server.")).
Proof.
  assert (Hnolink : forall r status,
    Ok (JSONResponse (error_body "No link provided.") 400)
    = Ok (JSONResponse r status) ->
    exists msg, msg <> "" /\ r = error_body msg
      /\ ((status = 200%Z /\ In msg [msg_no_video; msg_private; msg_unable;
                                      msg_broken; msg_unknown])
          \/ (status = 400%Z /\ msg = "Invalid JSON body.")
          \/ (status = 400%Z /\ msg = "No link provided.")
          \/ (status = 500%Z
              /\ msg = "No valid Instagram cookie files found on server."))).
  { intros r0 st0 [= <- <-]. eexists. split; [|split; [reflexivity|]].
    - discriminate.
    - right; right; left. now split. }
  destruct request_json as [body|].
  2:{ intros [= <- <-]. right. eexists. split; [|split; [reflexivity|]].
      - discriminate.
      - right; left. now split. }
  destruct body as [|b|n|s|l|d]; try discriminate.
  assert (Hcase : (exists s, dict_get "link" d = JStr s)
                  \/ (forall s, dict_get "link" d <> JStr s)).
  { destruct (dict_get "link" d); eauto; right; discriminate. }
  destruct Hcase as [[s Hv] | Hns].
  - rewrite (instagram_metadata_link P cookie_pool d s Hv).
    destruct (negb (PyStr.truthy (PyStr.strip s))).
    { intros H. right. exact (Hnolink _ _ H). }
    destruct cookie_pool as [|c0 rest].
    { intros [= <- <-]. right. eexists. split; [|split; [reflexivity|]].
      - discriminate.
      - right; right; right. now split. }
    destruct (success (run_pool P (PyStr.strip s) (c0 :: rest))); simpl.
    + destruct (meta (run_pool P (PyStr.strip s) (c0 :: rest)));
        [|discriminate].
      intros [= <- <-]. left. now split.
    + intros [= <- <-]. right. eexists. split; [|split; [reflexivity|]].
      * apply simplify_error_message_nonempty.
      * left. split; [reflexivity|]. apply simplify_error_message_range.
  - rewrite (instagram_metadata_not_string P cookie_pool d Hns).
    destruct (truthy_json (dict_get "link" d)); [discriminate|].
    intros H. right. exact (Hnolink _ _ H).
Qed.

Lemma instagram_metadata_outcome_witness :
  (200%Z = 200%Z
   /\ Resp.error (Resp.mk (JInt 0) (JInt 2) (JStr "") (JStr "") (JStr "")
                          (JStr "42") (JStr "")) = JStr "")
  \/ exists msg,
       msg <> ""
       /\ Resp.mk (JInt 0) (JInt 2) (JStr "") (JStr "") (JStr "") (JStr "42")
                  (JStr "")
          = Resp.mk (JStr "") (JStr "") (JStr "") (JStr "") (JStr "") (JStr "")
                    (JStr msg)
       /\ ((200%Z = 200%Z
            /\ In msg
                 [ "No downloadable video found (might be an image, carousel, or removed).";
                   "Post is private/restricted or the login session is not accepted.";
                   "Unable to extract data for this URL.";
                   "yt-dlp Instagram extractor is currently broken for this URL.";
                   "Unknown error – see server logs." ])
           \/ (200%Z = 400%Z /\ msg = "Invalid JSON body.")
           \/ (200%Z = 400%Z /\ msg = "No link provided.")
           \/ (200%Z = 500%Z
               /\ msg = "No valid Instagram cookie files found on server.")).
Proof.
  apply (instagram_metadata_outcome
           (mk_platform
              (fun _ _ => Ok (Info.mk None (Some 0%Z) (Some 2%Z) None None (Some "42")))
              (fun _ => 0%Z) false)
           [COOKIE_FILE_MAIN] (link_body a_reel)).
  vm_compute. reflexivity.
Defined.

(** X9. A request that fails a check never reaches the extraction library:
    with an empty pool, with a body that does not parse, or with a link that
    is missing, false or blank, the handler's result is the same whatever
    the library would have answered. *)
Theorem instagram_metadata_without_fetch :
  (forall (P P' : platform) (request_json : option json),
      instagram_metadata P [] request_json
      = instagram_metadata P' [] request_json)
  /\ (forall (P P' : platform) (cookie_pool : list string),
        instagram_metadata P cookie_pool None
        = instagram_metadata P' cookie_pool None)
  /\ (forall (P P' : platform) (cookie_pool : list string)
             (d : list (string * json)),
        truthy_json (dict_get "link" d) = false
        \/ (exists s, dict_get "link" d = JStr s /\ PyStr.strip s = "") ->
        instagram_metadata P cookie_pool (Some (JDict d))
        = instagram_metadata P' cookie_pool (Some (JDict d))).
Proof.
  split; [|split].
  - intros P P' request_json. apply instagram_metadata_ext; [tauto|].
    intros link H. now destruct H.
  - reflexivity.
  - intros P P' cookie_pool d [Hf | (s & Hs & Hb)].
    + unfold instagram_metadata. now rewrite Hf.
    + rewrite !(instagram_metadata_link _ _ d s Hs). now rewrite Hb.
Qed.

Lemma run_pool_first_two (P : platform) (link c0 c1 : string)
    (rest : list string) :
  run_pool P link (c0 :: c1 :: rest) = run_pool P link [c0; c1].
Proof. now rewrite !run_pool_cases. Qed.

Lemma run_pool_first_only (P : platform) (link c0 : string)
    (rest : list string) :
  (forall e, get_instagram_metadata P link c0 = Raise e ->
             should_retry_with_alt_cookie (Some e) = false) ->
  run_pool P link (c0 :: rest) = run_pool P link [c0].
Proof.
  intros H. rewrite !run_pool_cases.
  destruct (get_instagram_metadata P link c0) as [m|e]; [reflexivity|].
  destruct rest as [|c1 rest']; [reflexivity|].
  now rewrite (H e eq_refl).
Qed.

(** X10. Only the first two cookies of the pool can matter: the handler
    answers every request on a pool of three or more as it does on the
    pool's first two.  And the second matters only through the policy: when
    no error of the first cookie is one the policy accepts, the answer is
    the one of the first cookie alone. *)
Theorem instagram_metadata_pool_prefix :
  (forall (P : platform) (c0 c1 : string) (rest : list string)
          (request_json : option json),
      instagram_metadata P (c0 :: c1 :: rest) request_json
      = instagram_metadata P [c0; c1] request_json)
  /\ (forall (P : platform) (c0 : string) (rest : list string)
             (request_json : option json),
        (forall link e,
            get_instagram_metadata P link c0 = Raise e ->
            should_retry_with_alt_cookie (Some e) = false) ->
        instagram_metadata P (c0 :: rest) request_json
        = instagram_metadata P [c0] request_json).
Proof.
  split.
  - intros P c0 c1 rest request_json.
    apply instagram_metadata_ext; [split; discriminate|].
    intros link _. apply run_pool_first_two.
  - intros P c0 rest request_json H.
    apply instagram_metadata_ext; [split; discriminate|].
    intros link _. apply run_pool_first_only. apply H.
Qed.

(** X11. Of a request the handler reads the stripped link and nothing
    else: two JSON objects whose [link] strings strip to the same text get
    the same answer, whatever else they hold; so white space around the
    link changes nothing. *)
Theorem instagram_metadata_reads_stripped_link :
  (forall (P : platform) (cookie_pool : list string)
          (d1 d2 : list (string * json)) (s1 s2 : string),
      dict_get "link" d1 = JStr s1 ->
      dict_get "link" d2 = JStr s2 ->
      PyStr.strip s1 = PyStr.strip s2 ->
      instagram_metadata P cookie_pool (Some (JDict d1))
      = instagram_metadata P cookie_pool (Some (JDict d2)))
  /\ (forall (P : platform) (cookie_pool : list string) (s : string),
        instagram_metadata P cookie_pool (link_body s)
        = instagram_metadata P cookie_pool (link_body (PyStr.strip s))).
Proof.
  assert (H : forall P cookie_pool d1 d2 s1 s2,
    dict_get "link" d1 = JStr s1 -> dict_get "link" d2 = JStr s2 ->
    PyStr.strip s1 = PyStr.strip s2 ->
    instagram_metadata P cookie_pool (Some (JDict d1))
    = instagram_metadata P cookie_pool (Some (JDict d2))).
  { intros P cookie_pool d1 d2 s1 s2 H1 H2 Hs.
    rewrite (instagram_metadata_link _ _ d1 s1 H1).
    rewrite (instagram_metadata_link _ _ d2 s2 H2).
    now rewrite Hs. }
  split; [exact H|].
  intros P cookie_pool s. unfold link_body.
  apply (H P cookie_pool _ _ s (PyStr.strip s)); try reflexivity.
  symmetry. apply PyStrMore.strip_idempotent.
Qed.

Example link_with_spaces :
  instagram_metadata (utc_platform (Some 1700000000%Z)) [COOKIE_FILE_MAIN]
    (Some (JDict [("note", JInt 1); ("link", JStr ("  " +:+ a_reel +:+ " "))]))
  = instagram_metadata (utc_platform (Some 1700000000%Z)) [COOKIE_FILE_MAIN]
      (link_body a_reel).
Proof. vm_compute. reflexivity. Qed.

(** ** The manual test *)

(** The manual test on a URL that is not blank, from what the loop left. *)
Lemma manual_test_cases (P : platform) (cookie_pool : list string)
    (test_url : string) :
  PyStr.strip test_url <> "" ->
  manual_test P cookie_pool test_url =
  if negb (success (run_pool P (PyStr.strip test_url) cookie_pool)) then
    [st_error ("Failed: " +:+
               simplify_error_message
                 (last_error_raw (run_pool P (PyStr.strip test_url) cookie_pool)))]
  else
    match meta (run_pool P (PyStr.strip test_url) cookie_pool) with
    | None =>
        [st_success "Success!";
         st_error ("Unexpected error: " +:+ attribute_error JNull "get")]
    | Some meta => [st_success "Success!"; st_json meta]
    end.
Proof.
  intros H. unfold manual_test.
  destruct (PyStr.strip test_url); [now destruct H | reflexivity].
Qed.

(** X12. The manual test shows what the endpoint would answer.  On a pool
    that is not empty and a URL that is not blank, either the test shows
    "Success!" and a record, and the endpoint answers the same URL with
    status 200 and that record (absent fields as empty strings); or the test
    shows "Failed: " followed by a message, and the endpoint answers with
    status 200 and that message as [error]. *)
Theorem manual_test_agrees_with_endpoint
    (P : platform) (cookie_pool : list string) (test_url : string) :
  cookie_pool <> [] ->
  PyStr.strip test_url <> "" ->
  (exists m,
      manual_test P cookie_pool test_url = [st_success "Success!"; st_json m]
      /\ instagram_metadata P cookie_pool (Some (JDict [("link", JStr test_url)]))
         = Ok (JSONResponse
                 (Resp.mk (int_or_empty (Meta.plays m))
                          (int_or_empty (Meta.comments m))
                          (int_or_empty (Meta.likes m))
                          (str_or_empty (Meta.pub_date m))
                          (str_or_empty (Meta.pub_time m))
                          (str_or_empty (Meta.insta_id m))
                          (JStr "")) 200))
  \/ (exists friendly,
        manual_test P cookie_pool test_url
        = [st_error ("Failed: " +:+ friendly)]
        /\ instagram_metadata P cookie_pool (Some (JDict [("link", JStr test_url)]))
           = Ok (JSONResponse
                   (Resp.mk (JStr "") (JStr "") (JStr "") (JStr "") (JStr "")
                            (JStr "") (JStr friendly)) 200)).
Proof.
  intros Hpool Hurl.
  rewrite (manual_test_cases P cookie_pool test_url Hurl).
  rewrite (instagram_metadata_valid P cookie_pool [("link", JStr test_url)]
             test_url eq_refl Hurl Hpool).
  cbv zeta.
  destruct (success (run_pool P (PyStr.strip test_url) cookie_pool)) eqn:Hs;
    simpl.
  - destruct (run_pool_success_meta _ _ _ Hs) as [m Hm]. rewrite Hm.
    left. now exists m.
  - right. now eexists.
Qed.

Lemma manual_test_agrees_with_endpoint_witness :
  (exists m,
      manual_test (main_fails "No video formats found" (Ok (a_post None)))
        [COOKIE_FILE_MAIN; COOKIE_FILE_ALT] a_reel
      = [st_success "Success!"; st_json m]
      /\ instagram_metadata (main_fails "No video formats found" (Ok (a_post None)))
           [COOKIE_FILE_MAIN; COOKIE_FILE_ALT]
           (Some (JDict [("link", JStr a_reel)]))
         = Ok (JSONResponse
                 (Resp.mk (int_or_empty (Meta.plays m))
                          (int_or_empty (Meta.comments m))
                          (int_or_empty (Meta.likes m))
                          (str_or_empty (Meta.pub_date m))
                          (str_or_empty (Meta.pub_time m))
                          (str_or_empty (Meta.insta_id m))
                          (JStr "")) 200))
  \/ (exists friendly,
        manual_test (main_fails "No video formats found" (Ok (a_post None)))
          [COOKIE_FILE_MAIN; COOKIE_FILE_ALT] a_reel
        = [st_error ("Failed: " +:+ friendly)]
        /\ instagram_metadata (main_fails "No video formats found" (Ok (a_post None)))
             [COOKIE_FILE_MAIN; COOKIE_FILE_ALT]
             (Some (JDict [("link", JStr a_reel)]))
           = Ok (JSONResponse
                   (Resp.mk (JStr "") (JStr "") (JStr "") (JStr "") (JStr "")
                            (JStr "") (JStr friendly)) 200)).
Proof.
  apply (manual_test_agrees_with_endpoint
           (main_fails "No video formats found" (Ok (a_post None)))
           [COOKIE_FILE_MAIN; COOKIE_FILE_ALT] a_reel); discriminate.
Defined.

Example manual_test_scenario_C :
  manual_test (main_fails "No video formats found" (Ok (a_post None)))
    [COOKIE_FILE_MAIN; COOKIE_FILE_ALT] a_reel
  = [st_error
       "Failed: No downloadable video found (might be an image, carousel, or removed)."].
Proof. vm_compute. reflexivity. Qed.

(** X13. Where the manual test and the endpoint part.  A blank URL is
    refused with "Please enter an Instagram URL." before anything is
    fetched.  On an empty pool the manual test has no check of its own: the
    loop does nothing, no error was recorded, and the test shows "Failed:
    Unknown error – see server logs.", where the endpoint answers 500 with
    its message about cookie files. *)
Theorem manual_test_edges :
  (forall (P : platform) (cookie_pool : list string) (test_url : string),
      PyStr.strip test_url = "" ->
      manual_test P cookie_pool test_url
      = [st_error "Please enter an Instagram URL."])
  /\ (forall (P : platform) (test_url : string),
        PyStr.strip test_url <> "" ->
        manual_test P [] test_url
        = [st_error "Failed: Unknown error – see server logs."]
        /\ instagram_metadata P [] (Some (JDict [("link", JStr test_url)]))
           = Ok (JSONResponse
                   (Resp.mk (JStr "") (JStr "") (JStr "") (JStr "") (JStr "")
                            (JStr "")
                            (JStr "No valid Instagram cookie files found on server."))
                   500)).
Proof.
  split.
  - intros P cookie_pool test_url H. unfold manual_test. now rewrite H.
  - intros P test_url H. split.
    + now rewrite (manual_test_cases P [] test_url H).
    + rewrite (instagram_metadata_link P [] [("link", JStr test_url)]
                 test_url eq_refl).
      destruct (PyStr.strip test_url); [now destruct H | reflexivity].
Qed.

(** X14. The manual test never reaches its outer [except]: whatever the
    library does, whatever the pool and the URL, no "Unexpected error" is
    shown, and what is shown is one error, or "Success!" and one record. *)
Theorem manual_test_no_unexpected_error
    (P : platform) (cookie_pool : list string) (test_url : string) :
  (forall msg,
      ~ In (st_error ("Unexpected error: " +:+ msg))
           (manual_test P cookie_pool test_url))
  /\ ((exists msg, manual_test P cookie_pool test_url = [st_error msg])
      \/ (exists m,
            manual_test P cookie_pool test_url
            = [st_success "Success!"; st_json m])).
Proof.
  assert (Hne : forall a b, "Failed: " +:+ a <> "Unexpected error: " +:+ b)
    by (intros a b; rewrite !PyStrFacts.append_cons; discriminate).
  assert (Hne' : forall b,
            "Please enter an Instagram URL." <> "Unexpected error: " +:+ b)
    by (intros b; rewrite !PyStrFacts.append_cons; discriminate).
  destruct (PyStr.strip test_url) as [|c u] eqn:Hu.
  - unfold manual_test. rewrite Hu. simpl. split.
    + intros msg [H|[]]. apply (Hne' msg). congruence.
    + left. now eexists.
  - rewrite (manual_test_cases P cookie_pool test_url)
      by (rewrite Hu; discriminate).
    destruct (success (run_pool P (PyStr.strip test_url) cookie_pool)) eqn:Hs;
      simpl.
    + destruct (run_pool_success_meta _ _ _ Hs) as [m Hm]. rewrite Hm. split.
      * intros msg [H|[H|[]]]; discriminate H.
      * right. now exists m.
    + split.
      * intros msg [H|[]].
        assert (H' := f_equal (fun ev => match ev with
                                         | st_error x => x
                                         | _ => ""
                                         end) H).
        cbv beta iota in H'. now apply Hne in H'.
      * left. now eexists.
Qed.

(** ** Starting the API server *)

(** X15. The guard starts the server once per session.  A run of the guard
    never raises, leaves the flag set, and touches no other key; it starts
    a thread exactly when the flag was missing or false; and a run that
    follows starts none and changes nothing. *)
Theorem start_api_once_idempotent (session_state : gmap string bool) :
  exists started session_state',
    start_api_once session_state = Ok (started, session_state')
    /\ session_state' !! "api_server_started" = Some true
    /\ (forall key, key <> "api_server_started" ->
                    session_state' !! key = session_state !! key)
    /\ (started = false <-> session_state !! "api_server_started" = Some true)
    /\ start_api_once session_state' = Ok (false, session_state').
Proof.
  assert (Hset : forall ss : gmap string bool,
    ss !! API_SERVER_STARTED = Some true -> start_api_once ss = Ok (false, ss)).
  { intros ss H. unfold start_api_once. now rewrite H, H. }
  unfold start_api_once at 1.
  change "api_server_started" with API_SERVER_STARTED.
  destruct (session_state !! API_SERVER_STARTED) as [[|]|] eqn:E.
  - rewrite E. simpl. exists false, session_state.
    split; [reflexivity|]. split; [exact E|]. split; [reflexivity|].
    split; [tauto|]. now apply Hset.
  - rewrite E. simpl. eexists true, _. split; [reflexivity|].
    split; [apply lookup_insert_eq|].
    split; [intros key Hk; now apply lookup_insert_ne|].
    split; [split; discriminate|]. apply Hset, lookup_insert_eq.
  - rewrite lookup_insert_eq. simpl. eexists true, _. split; [reflexivity|].
    split; [apply lookup_insert_eq|].
    split; [intros key Hk; rewrite !lookup_insert_ne by congruence; reflexivity|].
    split; [split; discriminate|]. apply Hset, lookup_insert_eq.
Qed.
